(** * Contract validation and dispatch (src/neuralnet/contract.cpp)

    A shallow embedding of the contract envelope, its variant codecs, the
    key resolver, the replay guard and the dispatcher, followed by the
    properties established about them.

    Conventions:
    - [int] and [int64_t] fields are integers in [Z]; the arithmetic the code
      performs on them (one subtraction of two second counts) stays far from
      the 64-bit limits, where C++ leaves signed overflow undefined.
    - [unsigned int] and [uint256] are naturals in [N], so that [x > 0] reads
      as the code's unsigned comparison.
    - byte vectors are [list byte], [std::string] is [string].
    - the mutable [m_hash_cache] is threaded explicitly: every function that
      calls [GetHash()] returns the contract with its cache updated.
    - calls that leave this translation unit (logging, the application cache,
      the beacon directory, the whitelist) are recorded as a list of effects
      in program order. *)

From Stdlib Require Import ZArith NArith String List Bool Lia.
From stdpp Require Import base list.
Import ListNotations.

Local Open Scope string_scope.
Local Open Scope list_scope.

(** ** Enumerations declared in neuralnet/contract.h *)

Inductive ContractType : Type :=
| CT_UNKNOWN
| BEACON
| POLL
| PROJECT
| PROTOCOL
| SCRAPER
| SUPERBLOCK
| VOTE.

Inductive ContractAction : Type :=
| CA_UNKNOWN
| ADD
| REMOVE.

Definition ContractType_eqb (a b : ContractType) : bool :=
  match a, b with
  | CT_UNKNOWN, CT_UNKNOWN | BEACON, BEACON | POLL, POLL | PROJECT, PROJECT
  | PROTOCOL, PROTOCOL | SCRAPER, SCRAPER | SUPERBLOCK, SUPERBLOCK
  | VOTE, VOTE => true
  | _, _ => false
  end.

Definition ContractAction_eqb (a b : ContractAction) : bool :=
  match a, b with
  | CA_UNKNOWN, CA_UNKNOWN | ADD, ADD | REMOVE, REMOVE => true
  | _, _ => false
  end.

(** [std::string::empty()] *)
Definition empty (s : string) : bool :=
  match s with
  | EmptyString => true
  | String _ _ => false
  end.

(** ** EnumVariant: an enum value with an optional preserved literal *)

Module EnumVariant.
Record t (E : Type) : Type := Build
  { m_value : E;
    m_other : option string }.
Arguments Build {E} _ _.
Arguments m_value {E} _.
Arguments m_other {E} _.

Definition Value {E : Type} (v : t E) : E := m_value v.
End EnumVariant.

(** A 256-bit hash and the key material of key.h. *)
Definition uint256 : Type := N.

Definition byte : Type := Init.Byte.byte.

Record CPubKey : Type := MkCPubKey { vchPubKey : list byte }.

Module Contract.

(** *** Contract::Type *)
Module Type_.
Definition t : Type := EnumVariant.t ContractType.

(** [Type(ContractType type)] *)
Definition of_enum (type : ContractType) : t :=
  EnumVariant.Build type None.

(** [Type(std::string other)] *)
Definition of_other (other : string) : t :=
  EnumVariant.Build CT_UNKNOWN (Some other).

(** [Type(ContractType type, std::string other)] *)
Definition of_enum_other (type : ContractType) (other : string) : t :=
  EnumVariant.Build type (Some other).

Definition Value (v : t) : ContractType := EnumVariant.Value v.

(** [operator==(ContractType)] compares the enum value only. *)
Definition eq_enum (v : t) (e : ContractType) : bool :=
  ContractType_eqb (Value v) e.

Definition Parse (input : string) : t :=
  if empty input then of_enum CT_UNKNOWN
  else if (input =? "beacon")%string then of_enum BEACON
  else if (input =? "vote")%string then of_enum VOTE
  else if (input =? "poll")%string then of_enum POLL
  else if (input =? "project")%string then of_enum PROJECT
  else if (input =? "scraper")%string then of_enum SCRAPER
  else if (input =? "protocol")%string then of_enum PROTOCOL
  else if (input =? "superblock")%string then of_enum SUPERBLOCK
  else if (input =? "projectmapping")%string
       then of_enum_other PROJECT "projectmapping"
  else of_other input.

Definition ToString (v : t) : string :=
  match EnumVariant.m_other v with
  | Some other => other
  | None =>
      match EnumVariant.m_value v with
      | BEACON => "beacon"
      | POLL => "poll"
      | PROJECT => "project"
      | PROTOCOL => "protocol"
      | SCRAPER => "scraper"
      | SUPERBLOCK => "superblock"
      | VOTE => "vote"
      | CT_UNKNOWN => ""
      end
  end.
End Type_.

(** *** Contract::Action *)
Module Action.
Definition t : Type := EnumVariant.t ContractAction.

Definition of_enum (action : ContractAction) : t :=
  EnumVariant.Build action None.

Definition of_other (other : string) : t :=
  EnumVariant.Build CA_UNKNOWN (Some other).

Definition Value (v : t) : ContractAction := EnumVariant.Value v.

Definition eq_enum (v : t) (e : ContractAction) : bool :=
  ContractAction_eqb (Value v) e.

Definition Parse (input : string) : t :=
  if empty input then of_enum CA_UNKNOWN
  else if (input =? "A")%string then of_enum ADD
  else if (input =? "D")%string then of_enum REMOVE
  else of_other input.

Definition ToString (v : t) : string :=
  match EnumVariant.m_other v with
  | Some other => other
  | None =>
      match EnumVariant.m_value v with
      | ADD => "A"
      | REMOVE => "D"
      | CA_UNKNOWN => ""
      end
  end.
End Action.

(** *** Contract::Signature *)
Module Signature.
Record t : Type := Build { m_bytes : list byte }.

Definition default : t := Build [].

Definition size (s : t) : N := N.of_nat (length (m_bytes s)).

Definition Viable (s : t) : bool :=
  ((64 <=? size s) && (size s <=? 73))%N.

Definition Raw (s : t) : list byte := m_bytes s.

(** [DecodeBase64(input, &invalid)] comes from util.h: the decoded
    bytes and the [invalid] flag. *)
Definition Parse (DecodeBase64 : string -> list byte * bool)
           (input : string) : t :=
  if empty input then default
  else
    let '(decoded, invalid) := DecodeBase64 input in
    if invalid then default else Build decoded.

(** [Signature::ToString]; [EncodeBase64(data, size)] comes from util.h. *)
Definition ToString (EncodeBase64 : list byte -> string) (s : t) : string :=
  match m_bytes s with
  | [] => ""
  | _ :: _ => EncodeBase64 (m_bytes s)
  end.
End Signature.

(** *** Contract::PublicKey

    [CPubKey::IsValid] lives in key.h; it is passed in. *)
Module PublicKey.
Record t : Type := Build { m_key : CPubKey }.

Definition default : t := Build (MkCPubKey []).

Definition Viable (IsValid : CPubKey -> bool) (k : t) : bool :=
  IsValid (m_key k).

Definition Key (k : t) : CPubKey := m_key k.

(** [PublicKey::Parse]; [ParseHex] comes from util.h and the [CPubKey]
    constructor stores the bytes it is given. *)
Definition Parse (ParseHex : string -> list byte) (input : string) : t :=
  if empty input then default else Build (MkCPubKey (ParseHex input)).

(** [PublicKey::ToString]: [HexStr(m_key.Raw())]. *)
Definition ToString (HexStr : list byte -> string) (k : t) : string :=
  HexStr (vchPubKey (m_key k)).
End PublicKey.

(** *** The envelope

    The field types follow the full constructor: [int version],
    [unsigned int nonce], [long timestamp], [int64_t tx_timestamp]; the
    cache is a [uint256]. *)
Record t : Type := Build
  { m_version : Z;
    m_type : Type_.t;
    m_action : Action.t;
    m_key : string;
    m_value : string;
    m_signature : Signature.t;
    m_public_key : PublicKey.t;
    m_nonce : N;
    m_timestamp : Z;
    m_tx_timestamp : Z;
    m_hash_cache : uint256 }.

Definition with_hash_cache (h : uint256) (c : t) : t :=
  Build (m_version c) (m_type c) (m_action c) (m_key c) (m_value c)
        (m_signature c) (m_public_key c) (m_nonce c) (m_timestamp c)
        (m_tx_timestamp c) h.

Definition with_timestamp (ts : Z) (c : t) : t :=
  Build (m_version c) (m_type c) (m_action c) (m_key c) (m_value c)
        (m_signature c) (m_public_key c) (m_nonce c) ts
        (m_tx_timestamp c) (m_hash_cache c).

Definition with_nonce (n : N) (c : t) : t :=
  Build (m_version c) (m_type c) (m_action c) (m_key c) (m_value c)
        (m_signature c) (m_public_key c) n (m_timestamp c)
        (m_tx_timestamp c) (m_hash_cache c).

Definition with_signature (s : Signature.t) (c : t) : t :=
  Build (m_version c) (m_type c) (m_action c) (m_key c) (m_value c)
        s (m_public_key c) (m_nonce c) (m_timestamp c)
        (m_tx_timestamp c) (m_hash_cache c).

Definition with_public_key (k : PublicKey.t) (c : t) : t :=
  Build (m_version c) (m_type c) (m_action c) (m_key c) (m_value c)
        (m_signature c) k (m_nonce c) (m_timestamp c)
        (m_tx_timestamp c) (m_hash_cache c).

Definition with_action (a : Action.t) (c : t) : t :=
  Build (m_version c) (m_type c) a (m_key c) (m_value c)
        (m_signature c) (m_public_key c) (m_nonce c) (m_timestamp c)
        (m_tx_timestamp c) (m_hash_cache c).

End Contract.

(** ** What the translation unit takes from the rest of the node

    Constants of contract.h, the key and hash primitives, the adjusted
    clock's consumers and the text-tag extractor are defined outside
    contract.cpp. They are gathered in one interface. *)

Class Externals : Type :=
  { (** [Contract::CURRENT_VERSION] *)
    CURRENT_VERSION : Z;
    (** [REPLAY_RETENTION_PERIOD], in seconds *)
    REPLAY_RETENTION_PERIOD : Z;
    (** [CPubKey::IsValid] *)
    IsValid : CPubKey -> bool;
    (** [Hash(b1, e1, b2, e2, b3, e3)] over three character ranges *)
    Hash : string -> string -> string -> uint256;
    (** [SerializeHash(contract)] *)
    SerializeHash : Contract.t -> uint256;
    (** [CKey], [CKey::Sign] (the signature on success) and
        [CKey::GetPubKey] *)
    CKey : Type;
    CKey_Sign : CKey -> uint256 -> option (list byte);
    CKey_GetPubKey : CKey -> CPubKey;
    (** the global debug flag *)
    fDebug : bool;
    (** [ExtractXML(data, key, key_end)] *)
    ExtractXML : string -> string -> string -> string;
    (** [DecodeBase64(text, &invalid)]: the bytes and the invalid flag *)
    DecodeBase64 : string -> list byte * bool }.

(** ** The two fixed public keys *)

Section FixedKeys.
Import Init.Byte.

Definition MasterPublicKey : CPubKey := MkCPubKey
  [ x04; x9a; xc0; x03; xb3; x31; x8d; x9f; xe2; x8b; x28;
    x30; xf6; xa9; x5a; x26; x24; xce; x2a; x69; xfb; x0c;
    x0c; x7a; xc0; xb5; x13; xef; xcc; x1e; x93; xa6; xa6;
    xe8; xeb; xa8; x44; x81; x15; x5d; xd8; x2f; x2f; x11;
    x04; xe0; xff; x62; xc6; x9d; x66; x2b; x00; x94; x63;
    x9b; x71; x06; xab; xc5; xd8; x4f; x94; x8c; x0a ].

Definition MessagePublicKey : CPubKey := MkCPubKey
  [ x04; x4b; x29; x38; xfb; xc3; x80; x71; xf2; x4b; xed;
    xe2; x1e; x83; x8a; x07; x58; xa5; x2a; x00; x85; xf2;
    xe0; x34; xe7; xf9; x71; xdf; x44; x54; x36; xa2; x52;
    x46; x7f; x69; x2e; xc9; xc5; xba; x7e; x5e; xaa; x89;
    x8a; xb9; x9c; xbd; x99; x49; x49; x6f; x7e; x3c; xaf;
    xbf; x56; x30; x4b; x1c; xc2; xe5; xbd; xf0; x6e ].
End FixedKeys.

(** ** Contract member functions *)

Section ContractFunctions.
Context `{Externals}.
Import Contract.

(** [Contract::Contract()] *)
Definition Contract_default : Contract.t :=
  Contract.Build CURRENT_VERSION
                 (Type_.of_enum CT_UNKNOWN) (Action.of_enum CA_UNKNOWN)
                 "" "" Signature.default PublicKey.default 0%N 0%Z 0%Z 0%N.

(** [Contract::Contract(type, action, key, value)] *)
Definition Contract_new (type : Type_.t) (action : Action.t)
           (key value : string) : Contract.t :=
  Contract.Build CURRENT_VERSION type action key value
                 Signature.default PublicKey.default 0%N 0%Z 0%Z 0%N.

(** [Contract::ReplayPeriod()], with [GetAdjustedTime()] read as [now]. *)
Definition ReplayPeriod (now : Z) : Z := (now - REPLAY_RETENTION_PERIOD)%Z.

Definition RequiresMasterKey (c : Contract.t) : bool :=
  match Type_.Value (m_type c) with
  | BEACON => Action.eq_enum (m_action c) REMOVE
  | POLL => Action.eq_enum (m_action c) REMOVE
  | PROJECT => true
  | PROTOCOL => true
  | SCRAPER => true
  | VOTE => Action.eq_enum (m_action c) REMOVE
  | _ => false
  end.

Definition RequiresMessageKey (c : Contract.t) : bool :=
  match Type_.Value (m_type c) with
  | BEACON => Action.eq_enum (m_action c) ADD
  | POLL => Action.eq_enum (m_action c) ADD
  | VOTE => Action.eq_enum (m_action c) ADD
  | _ => false
  end.

Definition RequiresSpecialKey (c : Contract.t) : bool :=
  RequiresMessageKey c || RequiresMasterKey c.

Definition ResolvePublicKey (c : Contract.t) : CPubKey :=
  if RequiresMessageKey c then MessagePublicKey
  else if RequiresMasterKey c then MasterPublicKey
  else PublicKey.Key (m_public_key c).

Definition WellFormed (c : Contract.t) : bool :=
  (0 <? m_version c)%Z && (m_version c <=? CURRENT_VERSION)%Z
  && negb (Type_.eq_enum (m_type c) CT_UNKNOWN)
  && negb (Action.eq_enum (m_action c) CA_UNKNOWN)
  && negb (empty (m_key c))
  && negb (empty (m_value c))
  && Signature.Viable (m_signature c)
  && (RequiresSpecialKey c || PublicKey.Viable IsValid (m_public_key c))
  && (0 <? m_tx_timestamp c)%Z
  && ((m_version c =? 1)%Z
      || ((0 <? m_timestamp c)%Z && (0 <? m_nonce c)%N)).

(** [Contract::GetHash()]: the value returned and the contract with its
    cache as the call leaves it. *)
Definition GetHash (c : Contract.t) : uint256 * Contract.t :=
  if (0 <? m_hash_cache c)%N then (m_hash_cache c, c)
  else if (1 <? m_version c)%Z then
    let h := SerializeHash c in (h, with_hash_cache h c)
  else
    let type_string := Type_.ToString (m_type c) in
    let h := Hash type_string (m_key c) (m_value c) in
    (h, with_hash_cache h c).

End ContractFunctions.

(** ** Effects that leave the translation unit *)

Inductive ExternalHandler : Type :=
| BeaconDirectory   (* GetBeaconDirectory() *)
| Whitelist.        (* GetWhitelist() *)

Inductive Method : Type :=
| MAdd
| MDelete
| MRevert.

Inductive Effect : Type :=
| LogPrintf (prefix : string) (c : Contract.t)
    (* the LogPrintf call of Contract::Log *)
| error (format : string) (arg : string)
| WriteCache (section key value : string) (tx_timestamp : Z)
    (* WriteCache(StringToSection(section), key, value, tx_timestamp) *)
| DeleteCache (section key : string)
    (* DeleteCache(StringToSection(section), key) *)
| Assign_msPoll (c : Contract.t)
    (* msPoll = contract.ToString() *)
| Call (h : ExternalHandler) (m : Method) (c : Contract.t).
    (* a handler defined in beacon.h or project.h receives the contract *)

(** Effects that change handler state, as opposed to log lines. *)
Definition mutates (e : Effect) : bool :=
  match e with
  | LogPrintf _ _ | error _ _ => false
  | _ => true
  end.

Section ContractEffects.
Context `{Externals}.
Import Contract.

(** [Contract::Log] *)
Definition Log (prefix : string) (c : Contract.t) : list Effect :=
  if negb fDebug then [] else [LogPrintf prefix c].

(** [Contract::Parse]: legacy messages always give a version 1 contract. *)
Definition Parse (message : string) (timestamp : Z) : Contract.t :=
  if empty message then Contract_default
  else
    Contract.Build
      1
      (Type_.Parse (ExtractXML message "<MT>" "</MT>"))
      (Action.Parse (ExtractXML message "<MA>" "</MA>"))
      (ExtractXML message "<MK>" "</MK>")
      (ExtractXML message "<MV>" "</MV>")
      (Signature.Parse DecodeBase64 (ExtractXML message "<MS>" "</MS>"))
      PublicKey.default
      0%N
      0%Z
      timestamp
      0%N.

(** The contract as [Sign] has it when it calls [GetHash()]: the cache is
    dropped and, above version 1, timestamp and nonce are stamped. Used to
    name the hash the private key is asked to sign. *)
Definition signing_input (now : Z) (rnd : N) (c : Contract.t) : Contract.t :=
  let c := with_hash_cache 0%N c in
  if (1 <? m_version c)%Z then with_nonce rnd (with_timestamp now c) else c.

(** [Contract::Sign]. [now] is the adjusted time and [rnd] the four random
    bytes read into the nonce, both consulted only when the version is
    above 1. Returns the result, the contract afterwards and the log. *)
Definition Sign (private_key : CKey) (now : Z) (rnd : N) (c : Contract.t)
  : bool * Contract.t * list Effect :=
  let c := with_hash_cache 0%N c in
  let c := if (1 <? m_version c)%Z
           then with_nonce rnd (with_timestamp now c)
           else c in
  let '(hash, c) := GetHash c in
  match CKey_Sign private_key hash with
  | None => (false, c, Log "ERROR: Failed to sign contract" c)
  | Some output =>
      let c := with_signature (Signature.Build output) c in
      let c := if negb (RequiresSpecialKey c)
               then with_public_key
                      (PublicKey.Build (CKey_GetPubKey private_key)) c
               else c in
      (true, c, [])
  end.

End ContractEffects.

(** ** IContractHandler and its implementations *)

Module IContractHandler.
Record t : Type := Build
  { Add : Contract.t -> list Effect;
    Delete : Contract.t -> list Effect;
    Revert : Contract.t -> list Effect }.
End IContractHandler.

(** [IContractHandler::Revert], the implementation a handler inherits unless
    it overrides it; [Add] and [Delete] are the handler's own. *)
Definition IContractHandler_Revert
           (Add Delete : Contract.t -> list Effect) (contract : Contract.t)
  : list Effect :=
  if Contract.Action.eq_enum (Contract.m_action contract) ADD then
    Delete contract
  else if Contract.Action.eq_enum (Contract.m_action contract) REMOVE then
    Add contract
  else
    [error "Unknown contract action ignored: %s"
           (Contract.Action.ToString (Contract.m_action contract))].

Section Handlers.
Context `{Externals}.
Import Contract.

Definition AppCache_Add (contract : Contract.t) : list Effect :=
  WriteCache (Type_.ToString (m_type contract)) (m_key contract)
             (m_value contract) (m_tx_timestamp contract)
  :: (if Type_.eq_enum (m_type contract) POLL
      then [Assign_msPoll contract] else []).

Definition AppCache_Delete (contract : Contract.t) : list Effect :=
  [DeleteCache (Type_.ToString (m_type contract)) (m_key contract)].

Definition AppCacheContractHandler : IContractHandler.t :=
  IContractHandler.Build
    AppCache_Add AppCache_Delete
    (IContractHandler_Revert AppCache_Add AppCache_Delete).

Definition UnknownContractHandler : IContractHandler.t :=
  IContractHandler.Build
    (Log "WARNING: Add unknown contract type ignored")
    (Log "WARNING: Delete unknown contract type ignored")
    (Log "WARNING: Revert unknown contract type ignored").

(** The beacon directory and the whitelist are other translation units;
    a call into one of them is recorded, not interpreted. *)
Definition external (h : ExternalHandler) : IContractHandler.t :=
  IContractHandler.Build
    (fun contract => [Call h MAdd contract])
    (fun contract => [Call h MDelete contract])
    (fun contract => [Call h MRevert contract]).

Definition GetBeaconDirectory : IContractHandler.t :=
  external BeaconDirectory.

Definition GetWhitelist : IContractHandler.t := external Whitelist.

End Handlers.

(** ** The dispatcher *)

Module Dispatcher.

(** [ReplayPoolItem] *)
Record ReplayPoolItem : Type := Item
  { m_timestamp : Z;
    m_hash : uint256 }.

(** The dispatcher's own state is the replay pool, a [std::list]. *)
Record t : Type := Build
  { m_replay_pool : list ReplayPoolItem }.

Section WithExternals.
Context `{Externals}.

Definition m_appcache_handler : IContractHandler.t :=
  AppCacheContractHandler.

Definition m_unknown_handler : IContractHandler.t :=
  UnknownContractHandler.

Definition GetHandler (type : ContractType) : IContractHandler.t :=
  match type with
  | BEACON => GetBeaconDirectory
  | POLL => m_appcache_handler
  | PROJECT => GetWhitelist
  | PROTOCOL => m_appcache_handler
  | SCRAPER => m_appcache_handler
  | VOTE => m_appcache_handler
  | _ => m_unknown_handler
  end.

Definition Apply (contract : Contract.t) : list Effect :=
  if Contract.Action.eq_enum (Contract.m_action contract) ADD then
    Log "INFO: Add contract" contract
    ++ IContractHandler.Add
         (GetHandler (Contract.Type_.Value (Contract.m_type contract)))
         contract
  else if Contract.Action.eq_enum (Contract.m_action contract) REMOVE then
    Log "INFO: Delete contract" contract
    ++ IContractHandler.Delete
         (GetHandler (Contract.Type_.Value (Contract.m_type contract)))
         contract
  else
    Log "WARNING: Unknown contract action ignored" contract.

Definition Revert (contract : Contract.t) : list Effect :=
  Log "INFO: Revert contract" contract
  ++ IContractHandler.Revert
       (GetHandler (Contract.Type_.Value (Contract.m_type contract)))
       contract.

(** The [while] loop of [CheckReplay] from the iterator's position to
    the end of the pool: the result, what is left of that part of the
    pool, and the contract with its hash cache. An entry is compared
    with the contract's hash first and dropped, when stale, second. *)
Fixpoint scan (valid_after_time : Z) (contract : Contract.t)
         (items : list ReplayPoolItem)
  : bool * list ReplayPoolItem * Contract.t :=
  match items with
  | [] => (true, [], contract)
  | item :: rest =>
      let '(hash, contract) := GetHash contract in
      if (m_hash item =? hash)%N then
        (false, item :: rest, contract)
      else if (m_timestamp item <? valid_after_time)%Z then
        scan valid_after_time contract rest
      else
        let '(r, rest', contract) := scan valid_after_time contract rest in
        (r, item :: rest', contract)
  end.

(** [CheckReplay], with [GetAdjustedTime()] read as [now]. *)
Definition CheckReplay (now : Z) (d : t) (contract : Contract.t)
  : bool * t * Contract.t :=
  let valid_after_time := ReplayPeriod now in
  if (Contract.m_timestamp contract <? valid_after_time)%Z then
    (false, d, contract)
  else
    let '(r, pool, contract) :=
      scan valid_after_time contract (m_replay_pool d) in
    (r, Build pool, contract).

(** [TrackForReplay] *)
Definition TrackForReplay (d : t) (contract : Contract.t)
  : t * Contract.t :=
  let new_timestamp := Contract.m_timestamp contract in
  let '(new_hash, contract) := GetHash contract in
  (Build (m_replay_pool d ++ [Item new_timestamp new_hash]), contract).

End WithExternals.
End Dispatcher.

(** ** The remaining functions of the translation unit

    Further functions of util.h and key.h that these need. *)

Class Utilities : Type :=
  { (** [EncodeBase64(data, size)] *)
    EncodeBase64 : list byte -> string;
    (** [HexStr(bytes)] and [ParseHex(text)] *)
    HexStr : list byte -> string;
    ParseHex : string -> list byte;
    (** [Contains(data, instring)] *)
    Contains : string -> string -> bool;
    (** [CKey::SetPubKey], whether the key object accepts the public key,
        and [CKey::Verify] of the key object holding that public key *)
    CKey_SetPubKey : CPubKey -> bool;
    CKey_Verify : CPubKey -> uint256 -> list byte -> bool }.

Section RemainingFunctions.
Context `{Externals} `{Utilities}.
Import Contract.

(** [Contract::Detect] *)
Definition Detect (message : string) : bool :=
  negb (empty message)
  && Contains message "<MT>"
  && negb (Contains message "<MT>superblock</MT>").

(** [Contract::ToString] *)
Definition ToString (c : Contract.t) : string :=
  "<MT>" ++ Type_.ToString (m_type c) ++ "</MT>"
  ++ "<MK>" ++ m_key c ++ "</MK>"
  ++ "<MV>" ++ m_value c ++ "</MV>"
  ++ "<MA>" ++ Action.ToString (m_action c) ++ "</MA>"
  ++ "<MPK>" ++ PublicKey.ToString HexStr (m_public_key c) ++ "</MPK>"
  ++ "<MS>" ++ Signature.ToString EncodeBase64 (m_signature c) ++ "</MS>".

(** [Contract::VerifySignature]: the result, the contract with its hash
    cache, and the log. *)
Definition VerifySignature (c : Contract.t)
  : bool * Contract.t * list Effect :=
  if negb (CKey_SetPubKey (ResolvePublicKey c)) then
    (false, c, Log "ERROR: Failed to set contract public key" c)
  else
    let public_key := ResolvePublicKey c in
    let '(hash, c) := GetHash c in
    (CKey_Verify public_key hash (Signature.Raw (m_signature c)), c, []).

(** [Contract::Validate]: [&&] evaluates [VerifySignature()] only for a
    well-formed contract. *)
Definition Validate (c : Contract.t) : bool * Contract.t * list Effect :=
  if WellFormed c then VerifySignature c else (false, c, []).

(** [NN::ProcessContract] and [NN::RevertContract] *)
Definition ProcessContract (contract : Contract.t) : list Effect :=
  Dispatcher.Apply contract.

Definition RevertContract (contract : Contract.t) : list Effect :=
  Dispatcher.Revert contract.

(** [NN::CheckContractReplay] and [NN::TrackContracts]. Both name the same
    global, [gateway]; it is the dispatcher state passed here. *)
Definition CheckContractReplay (now : Z) (gateway : Dispatcher.t)
           (contract : Contract.t) : bool * Dispatcher.t * Contract.t :=
  Dispatcher.CheckReplay now gateway contract.

Fixpoint TrackContracts (gateway : Dispatcher.t) (contracts : list Contract.t)
  : Dispatcher.t * list Contract.t :=
  match contracts with
  | [] => (gateway, [])
  | contract :: rest =>
      let '(gateway, contract) := Dispatcher.TrackForReplay gateway contract in
      let '(gateway, rest) := TrackContracts gateway rest in
      (gateway, contract :: rest)
  end.

End RemainingFunctions.

(** ** Auxiliary definitions used in the statements *)

(** The canonical tokens, in the order [Parse] tests them. *)
Definition Type_tokens : list string :=
  ["beacon"; "vote"; "poll"; "project"; "scraper"; "protocol"; "superblock"].

Definition Action_tokens : list string := ["A"; "D"].

Definition is_token (tokens : list string) (s : string) : bool :=
  existsb (String.eqb s) tokens.

(** The pool side of the [CheckReplay] loop, for a contract hash that is
    already known. *)
Fixpoint scan_hash (valid_after_time : Z) (hash : uint256)
         (items : list Dispatcher.ReplayPoolItem)
  : bool * list Dispatcher.ReplayPoolItem :=
  match items with
  | [] => (true, [])
  | item :: rest =>
      if (Dispatcher.m_hash item =? hash)%N then (false, item :: rest)
      else if (Dispatcher.m_timestamp item <? valid_after_time)%Z then
        scan_hash valid_after_time hash rest
      else
        let '(r, rest') := scan_hash valid_after_time hash rest in
        (r, item :: rest')
  end.

(** An entry is fresh when it is not older than the cut-off. *)
Definition fresh (valid_after_time : Z) (item : Dispatcher.ReplayPoolItem)
  : Prop :=
  (valid_after_time <= Dispatcher.m_timestamp item)%Z.

#[local] Instance fresh_dec valid_after_time item :
  Decision (fresh valid_after_time item).
Proof. unfold fresh. apply _. Defined.

(** ** A concrete environment for evaluating the definitions *)

Definition sample_externals : Externals :=
  {| CURRENT_VERSION := 2;
     REPLAY_RETENTION_PERIOD := 3600;
     IsValid := fun k => (length (vchPubKey k) =? 33)%nat
                         || (length (vchPubKey k) =? 65)%nat;
     Hash := fun a b c =>
       N.of_nat (String.length a + 2 * String.length b + 3 * String.length c);
     SerializeHash := fun c =>
       (Contract.m_nonce c + Z.to_N (Contract.m_timestamp c) + 1)%N;
     CKey := bool;
     CKey_Sign := fun k h => if k then Some (repeat Byte.x30 70) else None;
     CKey_GetPubKey := fun _ => MkCPubKey (repeat Byte.x04 65);
     fDebug := true;
     ExtractXML := fun _ _ _ => "";
     DecodeBase64 := fun _ => ([], true) |}.

(** A substring test, to stand for [Contains] in the sample utilities. *)
Fixpoint sample_Contains (data instring : string) : bool :=
  if String.prefix instring data then true
  else match data with
       | EmptyString => false
       | String _ data' => sample_Contains data' instring
       end.

(** Sample utilities: byte strings are written out character by character
    instead of in base64 or hex, and a signature verifies when it is the one
    the sample key produces. *)
Definition sample_utilities : Utilities :=
  {| EncodeBase64 := string_of_list_byte;
     HexStr := string_of_list_byte;
     ParseHex := list_byte_of_string;
     Contains := sample_Contains;
     CKey_SetPubKey := fun _ => true;
     CKey_Verify := fun _ _ sig => (length sig =? 70)%nat |}.

(** An environment whose tag extractor answers as it would on the message
    "<MT>beacon</MT><MK>abc</MK><MV>pubkeyhex</MV><MA>A</MA><MPK></MPK><MS>...</MS>"
    with a signature text of 70 characters, decoded character by character. *)
Definition sample_parse_externals : Externals :=
  {| CURRENT_VERSION := 2;
     REPLAY_RETENTION_PERIOD := 3600;
     IsValid := fun k => (length (vchPubKey k) =? 33)%nat
                         || (length (vchPubKey k) =? 65)%nat;
     Hash := fun a b c =>
       N.of_nat (String.length a + 2 * String.length b + 3 * String.length c);
     SerializeHash := fun c =>
       (Contract.m_nonce c + Z.to_N (Contract.m_timestamp c) + 1)%N;
     CKey := bool;
     CKey_Sign := fun k h => if k then Some (repeat Byte.x30 70) else None;
     CKey_GetPubKey := fun _ => MkCPubKey (repeat Byte.x04 65);
     fDebug := false;
     ExtractXML := fun _ key _ =>
       if (key =? "<MT>")%string then "beacon"
       else if (key =? "<MA>")%string then "A"
       else if (key =? "<MK>")%string then "abc"
       else if (key =? "<MV>")%string then "pubkeyhex"
       else if (key =? "<MS>")%string
            then string_of_list_byte (repeat Byte.x30 70)
       else "";
     DecodeBase64 := fun text => (list_byte_of_string text, false) |}.

(** A version 2 contract of a type that takes the signer's own key. *)
Definition sample_superblock_contract : Contract.t :=
  Contract.Build 2 (Contract.Type_.of_enum SUPERBLOCK)
                 (Contract.Action.of_enum ADD)
                 "abc" "data" Contract.Signature.default
                 Contract.PublicKey.default 0%N 0%Z 5001%Z 0%N.

Definition sample_contract : Contract.t :=
  Contract.Build 2 (Contract.Type_.of_enum BEACON) (Contract.Action.of_enum ADD)
                 "abc" "pubkeyhex"
                 (Contract.Signature.Build (repeat Byte.x30 70))
                 Contract.PublicKey.default 7%N 5000%Z 5001%Z 0%N.

Definition sample_legacy_contract : Contract.t :=
  Contract.Build 1 (Contract.Type_.of_enum PROJECT)
                 (Contract.Action.of_enum ADD)
                 "abc" "url"
                 (Contract.Signature.Build (repeat Byte.x30 70))
                 Contract.PublicKey.default 0%N 0%Z 5001%Z 0%N.

Definition sample_dispatcher : Dispatcher.t :=
  Dispatcher.Build [Dispatcher.Item 100%Z 999%N; Dispatcher.Item 5000%Z 12%N;
                    Dispatcher.Item 2000%Z 13%N; Dispatcher.Item 4000%Z 14%N].

(** * Properties *)

(** ** Decidable equality of the enumerations *)

Lemma ContractType_eqb_spec a b : reflect (a = b) (ContractType_eqb a b).
Proof. destruct a, b; constructor; congruence. Qed.

Lemma ContractAction_eqb_spec a b : reflect (a = b) (ContractAction_eqb a b).
Proof. destruct a, b; constructor; congruence. Qed.

Example sample_contract_WellFormed :
  @WellFormed sample_externals sample_contract = true.
Proof. reflexivity. Qed.

Example sample_legacy_contract_WellFormed :
  @WellFormed sample_externals sample_legacy_contract = true.
Proof. reflexivity. Qed.

Example default_contract_not_WellFormed :
  @WellFormed sample_externals (@Contract_default sample_externals) = false.
Proof. reflexivity. Qed.

(** ** Well-formedness and key resolution *)

Section KeyResolver.
Context `{Externals}.
Import Contract.

Lemma empty_spec (s : string) : empty s = true <-> s = "".
Proof. destruct s; simpl; split; congruence. Qed.

Lemma Signature_Viable_spec (s : Signature.t) :
  Signature.Viable s = true <->
  (64 <= length (Signature.Raw s) <= 73)%nat.
Proof.
  unfold Signature.Viable, Signature.size, Signature.Raw.
  rewrite andb_true_iff, !N.leb_le. lia.
Qed.

Lemma Type_eq_enum_spec (v : Type_.t) (e : ContractType) :
  Type_.eq_enum v e = true <-> Type_.Value v = e.
Proof.
  unfold Type_.eq_enum.
  destruct (ContractType_eqb_spec (Type_.Value v) e); split; congruence.
Qed.

Lemma Action_eq_enum_spec (v : Action.t) (e : ContractAction) :
  Action.eq_enum v e = true <-> Action.Value v = e.
Proof.
  unfold Action.eq_enum.
  destruct (ContractAction_eqb_spec (Action.Value v) e); split; congruence.
Qed.

(** C1. [WellFormed()] holds exactly when: the version lies in
    [1 .. CURRENT_VERSION]; the type and the action are not UNKNOWN; key
    and value are non-empty; the signature has between 64 and 73 bytes; a
    special key is required or the embedded public key is viable; the
    transaction timestamp is positive; and the version is 1 or both the
    signing timestamp is positive and the nonce is nonzero. *)
Theorem WellFormed_iff (c : Contract.t) :
  WellFormed c = true <->
  (1 <= m_version c <= CURRENT_VERSION)%Z
  /\ Type_.Value (m_type c) <> CT_UNKNOWN
  /\ Action.Value (m_action c) <> CA_UNKNOWN
  /\ m_key c <> ""
  /\ m_value c <> ""
  /\ (64 <= length (Signature.Raw (m_signature c)) <= 73)%nat
  /\ (RequiresSpecialKey c = true
      \/ PublicKey.Viable IsValid (m_public_key c) = true)
  /\ (0 < m_tx_timestamp c)%Z
  /\ (m_version c = 1%Z
      \/ ((0 < m_timestamp c)%Z /\ m_nonce c <> 0%N)).
Proof.
  unfold WellFormed.
  rewrite !andb_true_iff, !orb_true_iff, !negb_true_iff, andb_true_iff.
  rewrite <- !not_true_iff_false.
  rewrite Type_eq_enum_spec, Action_eq_enum_spec, !empty_spec.
  rewrite Signature_Viable_spec.
  rewrite !Z.ltb_lt, Z.leb_le, Z.eqb_eq, N.ltb_lt.
  intuition lia.
Qed.

(** C2. [RequiresMasterKey()] is true exactly for REMOVE on
    BEACON/POLL/VOTE and for PROJECT/PROTOCOL/SCRAPER with any action;
    [RequiresMessageKey()] is true exactly for ADD on BEACON/POLL/VOTE;
    [ResolvePublicKey()] gives the fixed message key when the message key
    is required, otherwise the fixed master key when the master key is
    required, otherwise the embedded key. *)
Theorem key_resolution_table (c : Contract.t) :
  (RequiresMasterKey c = true <->
     (Action.Value (m_action c) = REMOVE
      /\ (Type_.Value (m_type c) = BEACON
          \/ Type_.Value (m_type c) = POLL
          \/ Type_.Value (m_type c) = VOTE))
     \/ Type_.Value (m_type c) = PROJECT
     \/ Type_.Value (m_type c) = PROTOCOL
     \/ Type_.Value (m_type c) = SCRAPER)
  /\ (RequiresMessageKey c = true <->
        Action.Value (m_action c) = ADD
        /\ (Type_.Value (m_type c) = BEACON
            \/ Type_.Value (m_type c) = POLL
            \/ Type_.Value (m_type c) = VOTE))
  /\ ResolvePublicKey c =
       (if RequiresMessageKey c then MessagePublicKey
        else if RequiresMasterKey c then MasterPublicKey
        else PublicKey.m_key (m_public_key c)).
Proof.
  split; [|split].
  - unfold RequiresMasterKey.
    destruct (Type_.Value (m_type c)); rewrite ?Action_eq_enum_spec;
      intuition congruence.
  - unfold RequiresMessageKey.
    destruct (Type_.Value (m_type c)); rewrite ?Action_eq_enum_spec;
      intuition congruence.
  - reflexivity.
Qed.

(** C9. For every type and action, "other"-tagged ones included, the
    master key and the message key are never required together, so the
    order in which [ResolvePublicKey()] tests them is immaterial: testing
    the master key first selects the same key. *)
Theorem special_keys_exclusive (c : Contract.t) :
  RequiresMasterKey c && RequiresMessageKey c = false
  /\ ResolvePublicKey c =
       (if RequiresMasterKey c then MasterPublicKey
        else if RequiresMessageKey c then MessagePublicKey
        else PublicKey.Key (m_public_key c)).
Proof.
  unfold ResolvePublicKey, RequiresMasterKey, RequiresMessageKey,
    Action.eq_enum.
  destruct (Type_.Value (m_type c)), (Action.Value (m_action c));
    split; reflexivity.
Qed.

End KeyResolver.

(** ** Variant codecs *)

Section Codecs.
Import Contract.

Lemma Type_ToString_Parse (s : string) : Type_.ToString (Type_.Parse s) = s.
Proof.
  unfold Type_.Parse.
  destruct s as [|a s]; [reflexivity|]. cbn [empty].
  repeat match goal with
         | |- context [String.eqb ?x ?y] =>
             destruct (String.eqb_spec x y) as [->|_]; [reflexivity|]
         end.
  reflexivity.
Qed.

Lemma Action_ToString_Parse (s : string) :
  Action.ToString (Action.Parse s) = s.
Proof.
  unfold Action.Parse.
  destruct s as [|a s]; [reflexivity|]. cbn [empty].
  repeat match goal with
         | |- context [String.eqb ?x ?y] =>
             destruct (String.eqb_spec x y) as [->|_]; [reflexivity|]
         end.
  reflexivity.
Qed.

Lemma Type_Parse_other (s : string) :
  EnumVariant.m_other (Type_.Parse s) =
    if empty s || is_token Type_tokens s then None else Some s.
Proof.
  unfold Type_.Parse, is_token, Type_tokens.
  destruct s as [|a s]; [reflexivity|]. cbn [empty orb existsb].
  repeat match goal with
         | |- context [String.eqb ?x ?y] =>
             destruct (String.eqb_spec x y) as [->|_]; [reflexivity|]
         end.
  reflexivity.
Qed.

Lemma Action_Parse_other (s : string) :
  EnumVariant.m_other (Action.Parse s) =
    if empty s || is_token Action_tokens s then None else Some s.
Proof.
  unfold Action.Parse, is_token, Action_tokens.
  destruct s as [|a s]; [reflexivity|]. cbn [empty orb existsb].
  repeat match goal with
         | |- context [String.eqb ?x ?y] =>
             destruct (String.eqb_spec x y) as [->|_]; [reflexivity|]
         end.
  reflexivity.
Qed.

(** C7. Parsing then printing returns the token that was parsed, for
    every string, so in particular for each canonical token and for each
    unknown non-empty token; a token that is neither empty nor canonical
    is kept in the "other" payload, a canonical token is not; parsing the
    canonical token of a known variant gives that variant back; and
    "projectmapping" parses to PROJECT carrying "projectmapping". *)
Theorem Parse_ToString_roundtrip :
  (forall s, Type_.ToString (Type_.Parse s) = s)
  /\ (forall s, Action.ToString (Action.Parse s) = s)
  /\ (forall s, EnumVariant.m_other (Type_.Parse s) =
                if empty s || is_token Type_tokens s then None else Some s)
  /\ (forall s, EnumVariant.m_other (Action.Parse s) =
                if empty s || is_token Action_tokens s then None else Some s)
  /\ (forall k, Type_.Parse (Type_.ToString (Type_.of_enum k)) =
                Type_.of_enum k)
  /\ (forall k, Action.Parse (Action.ToString (Action.of_enum k)) =
                Action.of_enum k)
  /\ map Type_.ToString
         (map Type_.of_enum
              [BEACON; VOTE; POLL; PROJECT; SCRAPER; PROTOCOL; SUPERBLOCK])
     = Type_tokens
  /\ map Action.ToString (map Action.of_enum [ADD; REMOVE]) = Action_tokens
  /\ Type_.Parse "projectmapping" =
       EnumVariant.Build PROJECT (Some "projectmapping")
  /\ Type_.ToString (Type_.Parse "projectmapping") = "projectmapping".
Proof.
  repeat split.
  - apply Type_ToString_Parse.
  - apply Action_ToString_Parse.
  - apply Type_Parse_other.
  - apply Action_Parse_other.
  - intros []; reflexivity.
  - intros []; reflexivity.
Qed.

End Codecs.

(** ** Hashing and signing *)

Section Hashing.
Context `{Externals}.
Import Contract.

Lemma with_hash_cache_id (c : Contract.t) :
  with_hash_cache (m_hash_cache c) c = c.
Proof. destruct c; reflexivity. Qed.

Lemma N_ltb_0_false (n : N) : (0 <? n)%N = false -> n = 0%N.
Proof. rewrite N.ltb_ge. lia. Qed.

(** A version 1 contract with an empty cache hashes its type string, key
    and value, nothing else. *)
Lemma GetHash_legacy (c : Contract.t) :
  m_version c = 1%Z -> m_hash_cache c = 0%N ->
  fst (GetHash c) = Hash (Type_.ToString (m_type c)) (m_key c) (m_value c).
Proof.
  intros Hv Hc. unfold GetHash. rewrite Hv, Hc. reflexivity.
Qed.

(** C4. Two well-formed version 1 contracts with empty hash caches that
    agree on the type's string form, the key and the value have the same
    hash; and replacing the action, the signature and the public key of
    such a contract leaves its hash unchanged. *)
Theorem GetHash_v1_depends_on_type_key_value (c1 c2 : Contract.t) :
  WellFormed c1 = true -> WellFormed c2 = true ->
  m_version c1 = 1%Z -> m_version c2 = 1%Z ->
  m_hash_cache c1 = 0%N -> m_hash_cache c2 = 0%N ->
  Type_.ToString (m_type c1) = Type_.ToString (m_type c2) ->
  m_key c1 = m_key c2 ->
  m_value c1 = m_value c2 ->
  fst (GetHash c1) = fst (GetHash c2)
  /\ forall a s k,
       fst (GetHash (with_action a (with_signature s (with_public_key k c1))))
       = fst (GetHash c1).
Proof.
  intros _ _ Hv1 Hv2 Hc1 Hc2 Ht Hk Hv. split.
  - rewrite !GetHash_legacy by assumption. congruence.
  - intros a s k. rewrite !GetHash_legacy by assumption. reflexivity.
Qed.

Lemma GetHash_fields (c : Contract.t) :
  let c' := snd (GetHash c) in
  m_version c' = m_version c /\ m_type c' = m_type c
  /\ m_action c' = m_action c /\ m_key c' = m_key c
  /\ m_value c' = m_value c /\ m_signature c' = m_signature c
  /\ m_public_key c' = m_public_key c /\ m_nonce c' = m_nonce c
  /\ m_timestamp c' = m_timestamp c
  /\ m_tx_timestamp c' = m_tx_timestamp c.
Proof.
  unfold GetHash.
  destruct (0 <? m_hash_cache c)%N; [|destruct (1 <? m_version c)%Z];
    cbn; repeat split.
Qed.

(** C8. When the private key fails to sign the hash it is given, [Sign]
    returns false and the contract keeps the signature and the embedded
    public key it had before the call. *)
Theorem Sign_failure_leaves_unsigned
        (private_key : CKey) (now : Z) (rnd : N) (c : Contract.t) :
  CKey_Sign private_key (fst (GetHash (signing_input now rnd c))) = None ->
  fst (fst (Sign private_key now rnd c)) = false
  /\ m_signature (snd (fst (Sign private_key now rnd c))) = m_signature c
  /\ m_public_key (snd (fst (Sign private_key now rnd c))) = m_public_key c.
Proof.
  intros Hfail. unfold Sign. fold (signing_input now rnd c).
  destruct (GetHash_fields (signing_input now rnd c))
    as (_ & _ & _ & _ & _ & Hs & Hp & _).
  destruct (GetHash (signing_input now rnd c)) as [hash c'] eqn:E.
  cbn [fst snd] in *. rewrite Hfail. cbn [fst snd].
  rewrite Hs, Hp. unfold signing_input.
  destruct (1 <? m_version (with_hash_cache 0%N c))%Z; split; auto.
Qed.

End Hashing.

(** ** Replay guard *)

Section ReplayGuard.
Context `{Externals}.
Import Dispatcher.

Lemma GetHash_idem (c : Contract.t) : GetHash (snd (GetHash c)) = GetHash c.
Proof.
  unfold GetHash.
  destruct (0 <? Contract.m_hash_cache c)%N eqn:E; cbn [snd].
  { rewrite E. reflexivity. }
  apply N_ltb_0_false in E.
  assert (Hid : forall h, h = 0%N -> Contract.with_hash_cache h c = c).
  { intros h ->. rewrite <- E. apply with_hash_cache_id. }
  destruct (1 <? Contract.m_version c)%Z eqn:Ev; cbn.
  - destruct (0 <? SerializeHash c)%N eqn:Eh; [reflexivity|].
    apply N_ltb_0_false in Eh. rewrite Ev.
    rewrite !(Hid _ Eh). reflexivity.
  - set (h := Hash _ _ _).
    destruct (0 <? h)%N eqn:Eh; [reflexivity|].
    apply N_ltb_0_false in Eh. rewrite Ev. fold h.
    rewrite !(Hid _ Eh). reflexivity.
Qed.

Lemma GetHash_timestamp (c : Contract.t) :
  Contract.m_timestamp (snd (GetHash c)) = Contract.m_timestamp c.
Proof. apply (GetHash_fields c). Qed.

(** The loop is [scan_hash] at the contract's hash; the contract comes out
    with the cache one call to [GetHash] leaves. *)
Lemma scan_scan_hash (va : Z) (items : list ReplayPoolItem) :
  forall c,
    scan va c items =
      (scan_hash va (fst (GetHash c)) items,
       match items with [] => c | _ :: _ => snd (GetHash c) end).
Proof.
  induction items as [|item rest IH]; intros c; [reflexivity|].
  cbn [scan scan_hash].
  destruct (GetHash c) as [h c1] eqn:E. cbn [fst snd].
  assert (E1 : GetHash c1 = (h, c1)).
  { pose proof (GetHash_idem c) as Hi. rewrite E in Hi. exact Hi. }
  destruct (m_hash item =? h)%N; [reflexivity|].
  rewrite IH, E1. cbn [fst snd].
  destruct (m_timestamp item <? va)%Z.
  - destruct rest; reflexivity.
  - destruct (scan_hash va h rest) as [r rest']. destruct rest; reflexivity.
Qed.

Lemma CheckReplay_unfold (now : Z) (d : t) (c : Contract.t) :
  CheckReplay now d c =
    if (Contract.m_timestamp c <? ReplayPeriod now)%Z then (false, d, c)
    else
      (fst (scan_hash (ReplayPeriod now) (fst (GetHash c)) (m_replay_pool d)),
       Build (snd (scan_hash (ReplayPeriod now) (fst (GetHash c))
                             (m_replay_pool d))),
       match m_replay_pool d with [] => c | _ :: _ => snd (GetHash c) end).
Proof.
  unfold CheckReplay.
  destruct (Contract.m_timestamp c <? ReplayPeriod now)%Z; [reflexivity|].
  rewrite scan_scan_hash.
  destruct (scan_hash _ _ _) as [r pool]. reflexivity.
Qed.

(** [CheckReplay] hands the contract back with the same hash and the same
    signing timestamp. *)
Lemma CheckReplay_contract (now : Z) (d : t) (c : Contract.t) :
  GetHash (snd (CheckReplay now d c)) = GetHash (snd (GetHash c))
  /\ Contract.m_timestamp (snd (CheckReplay now d c)) =
       Contract.m_timestamp c.
Proof.
  rewrite CheckReplay_unfold.
  destruct (Contract.m_timestamp c <? ReplayPeriod now)%Z; cbn [snd].
  - rewrite GetHash_idem. auto.
  - destruct (m_replay_pool d); rewrite ?GetHash_idem, ?GetHash_timestamp;
      auto.
Qed.

Lemma scan_hash_sublist (va : Z) (h : uint256) (items : list ReplayPoolItem) :
  sublist (snd (scan_hash va h items)) items.
Proof.
  induction items as [|item rest IH]; cbn [scan_hash]; [constructor|].
  destruct (m_hash item =? h)%N; [reflexivity|].
  destruct (m_timestamp item <? va)%Z.
  - now apply sublist_cons.
  - destruct (scan_hash va h rest) as [r rest']. now apply sublist_skip.
Qed.

Lemma scan_hash_keeps_fresh (va : Z) (h : uint256)
      (items : list ReplayPoolItem) :
  filter (fresh va) (snd (scan_hash va h items)) = filter (fresh va) items.
Proof.
  induction items as [|item rest IH]; cbn [scan_hash]; [reflexivity|].
  destruct (m_hash item =? h)%N; [reflexivity|].
  destruct (Z.ltb_spec (m_timestamp item) va) as [Hlt|Hge].
  - rewrite IH. rewrite (filter_cons_False (fresh va)); [reflexivity|].
    unfold fresh. lia.
  - destruct (scan_hash va h rest) as [r rest']. cbn [snd] in *.
    rewrite !(filter_cons_True (fresh va)) by exact Hge.
    now rewrite IH.
Qed.

Lemma scan_hash_accepts_purged (va : Z) (h : uint256)
      (items : list ReplayPoolItem) :
  fst (scan_hash va h items) = true ->
  snd (scan_hash va h items) = filter (fresh va) items.
Proof.
  induction items as [|item rest IH]; cbn [scan_hash]; [reflexivity|].
  destruct (m_hash item =? h)%N; [discriminate|].
  destruct (Z.ltb_spec (m_timestamp item) va) as [Hlt|Hge].
  - intros Hr. rewrite (filter_cons_False (fresh va)); [now apply IH|].
    unfold fresh. lia.
  - destruct (scan_hash va h rest) as [r rest']. cbn [fst snd] in *.
    intros Hr. rewrite (filter_cons_True (fresh va)) by exact Hge.
    now rewrite IH.
Qed.

Lemma scan_hash_no_match (va : Z) (h : uint256)
      (items : list ReplayPoolItem) :
  Forall (fun item => m_hash item <> h) items ->
  fst (scan_hash va h items) = true.
Proof.
  induction 1 as [|item rest Hne _ IH]; cbn [scan_hash]; [reflexivity|].
  destruct (N.eqb_spec (m_hash item) h); [contradiction|].
  destruct (m_timestamp item <? va)%Z; [exact IH|].
  destruct (scan_hash va h rest). exact IH.
Qed.

Lemma scan_hash_match (va : Z) (h : uint256) (items : list ReplayPoolItem) :
  Exists (fun item => m_hash item = h) items ->
  fst (scan_hash va h items) = false.
Proof.
  induction items as [|item rest IH]; intros Hex; [inversion Hex|].
  cbn [scan_hash].
  destruct (N.eqb_spec (m_hash item) h) as [|Hne]; [reflexivity|].
  assert (Hrest : Exists (fun item => m_hash item = h) rest).
  { inversion Hex; subst; [contradiction|assumption]. }
  destruct (m_timestamp item <? va)%Z; [auto|].
  destruct (scan_hash va h rest). cbn [fst] in *. auto.
Qed.

End ReplayGuard.

Section ReplayGuardClaims.
Context `{Externals}.
Import Dispatcher.

(** C3. A contract signed inside the retention window whose hash is not
    in the pool passes [CheckReplay]; [TrackForReplay] then appends the
    pair (signing timestamp, hash) to the pool; and any later
    [CheckReplay] of that contract, signed inside the window of that later
    time, fails. [TrackForReplay] appends that pair whatever the
    dispatcher and the contract are. *)
Theorem replay_guard_rejects_tracked_contract
        (now : Z) (d : t) (c : Contract.t) :
  (ReplayPeriod now <= Contract.m_timestamp c)%Z ->
  Forall (fun item => m_hash item <> fst (GetHash c)) (m_replay_pool d) ->
  let check1 := CheckReplay now d c in
  let track := TrackForReplay (snd (fst check1)) (snd check1) in
  fst (fst check1) = true
  /\ m_replay_pool (fst track) =
       m_replay_pool (snd (fst check1))
       ++ [Item (Contract.m_timestamp c) (fst (GetHash c))]
  /\ (forall now',
         (ReplayPeriod now' <= Contract.m_timestamp c)%Z ->
         fst (fst (CheckReplay now' (fst track) (snd track))) = false)
  /\ (forall d0 c0,
         m_replay_pool (fst (TrackForReplay d0 c0)) =
           m_replay_pool d0
           ++ [Item (Contract.m_timestamp c0) (fst (GetHash c0))]).
Proof.
  intros Hwin Hnew check1 track.
  assert (Htrack : forall d0 c0,
             m_replay_pool (fst (TrackForReplay d0 c0)) =
               m_replay_pool d0
               ++ [Item (Contract.m_timestamp c0) (fst (GetHash c0))]).
  { intros d0 c0. unfold TrackForReplay.
    destruct (GetHash c0) as [h0 c0']. reflexivity. }
  destruct (CheckReplay_contract now d c) as [Hh Hts].
  fold check1 in Hh, Hts. rewrite GetHash_idem in Hh.
  assert (Hpool : m_replay_pool (fst track) =
                    m_replay_pool (snd (fst check1))
                    ++ [Item (Contract.m_timestamp c) (fst (GetHash c))]).
  { unfold track. rewrite Htrack, Hts, Hh. reflexivity. }
  assert (Hc2 : fst (GetHash (snd track)) = fst (GetHash c)
                /\ Contract.m_timestamp (snd track) = Contract.m_timestamp c).
  { assert (Hsnd : snd track = snd (GetHash (snd check1))).
    { unfold track, TrackForReplay.
      destruct (GetHash (snd check1)) as [h1 c1]. reflexivity. }
    rewrite Hsnd, GetHash_idem, GetHash_timestamp, Hh, Hts. auto. }
  destruct Hc2 as [Hh2 Hts2].
  repeat split; [| exact Hpool | | exact Htrack].
  - unfold check1. rewrite CheckReplay_unfold.
    destruct (Z.ltb_spec (Contract.m_timestamp c) (ReplayPeriod now));
      [lia|]. cbn [fst].
    now apply scan_hash_no_match.
  - intros now' Hwin'. rewrite CheckReplay_unfold, Hts2, Hh2.
    destruct (Z.ltb_spec (Contract.m_timestamp c) (ReplayPeriod now'));
      [reflexivity|]. cbn [fst].
    apply scan_hash_match. rewrite Hpool.
    apply Exists_app. right. constructor. reflexivity.
Qed.

(** C5. A contract signed before now minus the retention period fails
    [CheckReplay] whatever the pool holds, and the pool is left as it was;
    so a version 1 contract, whose signing timestamp is 0, fails as soon
    as now exceeds the retention period, and so does every contract that
    [Parse] builds from a legacy message. *)
Theorem CheckReplay_rejects_stale_contract :
  (forall now d c,
      (Contract.m_timestamp c < ReplayPeriod now)%Z ->
      CheckReplay now d c = (false, d, c))
  /\ (forall now d c,
         Contract.m_version c = 1%Z ->
         Contract.m_timestamp c = 0%Z ->
         (REPLAY_RETENTION_PERIOD < now)%Z ->
         CheckReplay now d c = (false, d, c))
  /\ (forall now d message tx_timestamp,
         (REPLAY_RETENTION_PERIOD < now)%Z ->
         fst (fst (CheckReplay now d (Parse message tx_timestamp))) = false).
Proof.
  assert (Hstale : forall now d c,
             (Contract.m_timestamp c < ReplayPeriod now)%Z ->
             CheckReplay now d c = (false, d, c)).
  { intros now d c Hlt. unfold CheckReplay.
    destruct (Z.ltb_spec (Contract.m_timestamp c) (ReplayPeriod now));
      [reflexivity|lia]. }
  split; [exact Hstale|]. split.
  - intros now d c _ Hts Hnow. apply Hstale.
    unfold ReplayPeriod. lia.
  - intros now d message tx_timestamp Hnow. rewrite Hstale; [reflexivity|].
    unfold ReplayPeriod, Parse, Contract_default.
    destruct (empty message); cbn; lia.
Qed.

(** C10. [CheckReplay] leaves a sub-list of the pool it found (nothing is
    added, order is kept); every entry it drops is older than now minus
    the retention period (the entries not older are all still there); and
    when it returns true the pool that remains is exactly the entries not
    older than the cut-off, so each remaining entry has a timestamp of at
    least now minus the retention period. *)
Theorem CheckReplay_purges_only_stale_entries
        (now : Z) (d : t) (c : Contract.t) :
  let pool' := m_replay_pool (snd (fst (CheckReplay now d c))) in
  sublist pool' (m_replay_pool d)
  /\ filter (fresh (ReplayPeriod now)) pool' =
       filter (fresh (ReplayPeriod now)) (m_replay_pool d)
  /\ (forall item,
         item ∈ m_replay_pool d -> item ∉ pool' ->
         (m_timestamp item < ReplayPeriod now)%Z)
  /\ (fst (fst (CheckReplay now d c)) = true ->
      pool' = filter (fresh (ReplayPeriod now)) (m_replay_pool d)
      /\ Forall (fun item => (ReplayPeriod now <= m_timestamp item)%Z) pool').
Proof.
  intros pool'.
  assert (Hsub : sublist pool' (m_replay_pool d)).
  { unfold pool'. rewrite CheckReplay_unfold.
    destruct (Contract.m_timestamp c <? ReplayPeriod now)%Z; cbn [fst snd].
    - reflexivity.
    - apply scan_hash_sublist. }
  assert (Hkeep : filter (fresh (ReplayPeriod now)) pool' =
                    filter (fresh (ReplayPeriod now)) (m_replay_pool d)).
  { unfold pool'. rewrite CheckReplay_unfold.
    destruct (Contract.m_timestamp c <? ReplayPeriod now)%Z; cbn [fst snd].
    - reflexivity.
    - apply scan_hash_keeps_fresh. }
  split; [exact Hsub|]. split; [exact Hkeep|]. split.
  - intros item Hin Hout.
    destruct (Z.lt_ge_cases (m_timestamp item) (ReplayPeriod now))
      as [Hlt|Hge]; [exact Hlt|].
    exfalso. apply Hout.
    assert (Hf : item ∈ filter (fresh (ReplayPeriod now)) pool').
    { rewrite Hkeep. apply list_elem_of_filter. split; assumption. }
    apply list_elem_of_filter in Hf. tauto.
  - intros Hr.
    assert (Hp : pool' = filter (fresh (ReplayPeriod now)) (m_replay_pool d)).
    { revert Hr. unfold pool'. rewrite CheckReplay_unfold.
      destruct (Contract.m_timestamp c <? ReplayPeriod now)%Z;
        cbn [fst snd]; [discriminate|].
      apply scan_hash_accepts_purged. }
    split; [exact Hp|]. rewrite Hp.
    apply Forall_forall. intros item Hin.
    apply list_elem_of_filter in Hin. apply Hin.
Qed.

End ReplayGuardClaims.

(** ** Dispatch *)

Section Dispatch.
Context `{Externals}.
Import Contract.

Lemma Log_no_mutation (prefix : string) (c : Contract.t) :
  existsb mutates (Log prefix c) = false.
Proof. unfold Log. destruct fDebug; reflexivity. Qed.

(** C6. [Apply] hands the contract to the handler its type selects: the
    beacon directory for BEACON, the whitelist for PROJECT, the legacy
    key-value handler for POLL, PROTOCOL, SCRAPER and VOTE, the
    unknown-type handler for every other type. It calls that handler's
    [Add] for ADD and its [Delete] for REMOVE, preceded by one log line,
    and for any other action it only logs. The inherited [Revert] calls
    the handler's [Delete] on the same contract for ADD, its [Add] for
    REMOVE, and otherwise only reports an error; the dispatcher's [Revert]
    calls the [Revert] of the handler the type selects. *)
Theorem dispatcher_routes_by_type_and_action (contract : Contract.t) :
  let handler :=
    match Type_.Value (m_type contract) with
    | BEACON => GetBeaconDirectory
    | PROJECT => GetWhitelist
    | POLL | PROTOCOL | SCRAPER | VOTE => AppCacheContractHandler
    | SUPERBLOCK | CT_UNKNOWN => UnknownContractHandler
    end in
  Dispatcher.GetHandler (Type_.Value (m_type contract)) = handler
  /\ Dispatcher.Apply contract =
       match Action.Value (m_action contract) with
       | ADD => Log "INFO: Add contract" contract
                ++ IContractHandler.Add handler contract
       | REMOVE => Log "INFO: Delete contract" contract
                   ++ IContractHandler.Delete handler contract
       | CA_UNKNOWN => Log "WARNING: Unknown contract action ignored" contract
       end
  /\ match Action.Value (m_action contract) with
     | ADD | REMOVE => True
     | CA_UNKNOWN => existsb mutates (Dispatcher.Apply contract) = false
     end
  /\ (forall Add Delete : Contract.t -> list Effect,
         IContractHandler_Revert Add Delete contract =
           match Action.Value (m_action contract) with
           | ADD => Delete contract
           | REMOVE => Add contract
           | CA_UNKNOWN =>
               [error "Unknown contract action ignored: %s"
                      (Action.ToString (m_action contract))]
           end)
  /\ match Action.Value (m_action contract) with
     | ADD | REMOVE => True
     | CA_UNKNOWN =>
         forall Add Delete,
           existsb mutates (IContractHandler_Revert Add Delete contract)
           = false
     end
  /\ IContractHandler.Revert AppCacheContractHandler =
       IContractHandler_Revert
         (IContractHandler.Add AppCacheContractHandler)
         (IContractHandler.Delete AppCacheContractHandler)
  /\ Dispatcher.Revert contract =
       Log "INFO: Revert contract" contract
       ++ IContractHandler.Revert handler contract.
Proof.
  intros handler.
  assert (Hh : Dispatcher.GetHandler (Type_.Value (m_type contract))
               = handler).
  { unfold handler, Dispatcher.GetHandler.
    destruct (Type_.Value (m_type contract)); reflexivity. }
  unfold Dispatcher.Apply, Dispatcher.Revert, IContractHandler_Revert,
    Action.eq_enum.
  rewrite Hh.
  destruct (Action.Value (m_action contract)); cbn [ContractAction_eqb];
    repeat split; auto using Log_no_mutation.
Qed.

End Dispatch.

(** ** The definitions at concrete inputs *)

Example Apply_beacon_add :
  @Dispatcher.Apply sample_externals sample_contract =
    [LogPrintf "INFO: Add contract" sample_contract;
     Call BeaconDirectory MAdd sample_contract].
Proof. reflexivity. Qed.

Example Revert_project_add :
  @Dispatcher.Revert sample_externals sample_legacy_contract =
    [LogPrintf "INFO: Revert contract" sample_legacy_contract;
     Call Whitelist MRevert sample_legacy_contract].
Proof. reflexivity. Qed.

Example Apply_poll_add :
  let poll := Contract.Build 1 (Contract.Type_.of_enum POLL)
                             (Contract.Action.of_enum ADD) "title" "body"
                             Contract.Signature.default
                             Contract.PublicKey.default 0%N 0%Z 77%Z 0%N in
  @Dispatcher.Apply sample_externals poll =
    [LogPrintf "INFO: Add contract" poll;
     WriteCache "poll" "title" "body" 77%Z;
     Assign_msPoll poll]
  /\ @Dispatcher.Revert sample_externals poll =
       [LogPrintf "INFO: Revert contract" poll; DeleteCache "poll" "title"].
Proof. split; reflexivity. Qed.

Example CheckReplay_sample :
  fst (@Dispatcher.CheckReplay sample_externals 6000%Z sample_dispatcher
                               sample_contract)
  = (true,
     Dispatcher.Build [Dispatcher.Item 5000%Z 12%N; Dispatcher.Item 4000%Z 14%N]).
Proof. reflexivity. Qed.

Example CheckReplay_stops_at_match :
  fst (@Dispatcher.CheckReplay
         sample_externals 6000%Z
         (Dispatcher.Build [Dispatcher.Item 100%Z 999%N;
                            Dispatcher.Item 5000%Z 5008%N;
                            Dispatcher.Item 2000%Z 13%N])
         sample_contract)
  = (false,
     Dispatcher.Build [Dispatcher.Item 5000%Z 5008%N;
                       Dispatcher.Item 2000%Z 13%N]).
Proof. reflexivity. Qed.

(** ** Witnesses: the theorems with hypotheses, at the sample inputs *)

Lemma replay_guard_rejects_tracked_contract_witness :
  let check1 :=
    @Dispatcher.CheckReplay sample_externals 6000%Z sample_dispatcher
                            sample_contract in
  let track :=
    @Dispatcher.TrackForReplay sample_externals (snd (fst check1))
                               (snd check1) in
  fst (fst check1) = true
  /\ fst (fst (@Dispatcher.CheckReplay sample_externals 7000%Z (fst track)
                                       (snd track))) = false.
Proof.
  pose proof (@replay_guard_rejects_tracked_contract
                sample_externals 6000%Z sample_dispatcher sample_contract)
    as Hthm.
  cbv zeta in Hthm.
  destruct Hthm as (H1 & _ & H3 & _).
  - vm_compute. discriminate.
  - repeat constructor; vm_compute; discriminate.
  - split; [exact H1|]. apply H3. vm_compute. discriminate.
Defined.

Lemma GetHash_v1_depends_on_type_key_value_witness :
  fst (@GetHash sample_externals sample_legacy_contract) =
  fst (@GetHash sample_externals
         (Contract.with_action (Contract.Action.of_enum REMOVE)
                               sample_legacy_contract)).
Proof.
  apply (@GetHash_v1_depends_on_type_key_value
           sample_externals sample_legacy_contract
           (Contract.with_action (Contract.Action.of_enum REMOVE)
                                 sample_legacy_contract));
    reflexivity.
Defined.

Lemma Sign_failure_leaves_unsigned_witness :
  fst (fst (@Sign sample_externals false 6000%Z 9%N sample_contract)) = false
  /\ Contract.m_signature
       (snd (fst (@Sign sample_externals false 6000%Z 9%N sample_contract)))
     = Contract.m_signature sample_contract
  /\ Contract.m_public_key
       (snd (fst (@Sign sample_externals false 6000%Z 9%N sample_contract)))
     = Contract.m_public_key sample_contract.
Proof.
  apply (@Sign_failure_leaves_unsigned sample_externals false 6000%Z 9%N
                                       sample_contract).
  reflexivity.
Defined.

Lemma CheckReplay_rejects_stale_contract_witness :
  @Dispatcher.CheckReplay sample_externals 6000%Z sample_dispatcher
                          sample_legacy_contract
  = (false, sample_dispatcher, sample_legacy_contract).
Proof.
  apply (proj1 (proj2 (@CheckReplay_rejects_stale_contract sample_externals)));
    [reflexivity | reflexivity | vm_compute; reflexivity].
Defined.

Lemma CheckReplay_purges_only_stale_entries_witness :
  Forall (fun item => (2400 <= Dispatcher.m_timestamp item)%Z)
         (Dispatcher.m_replay_pool
            (snd (fst (@Dispatcher.CheckReplay
                         sample_externals 6000%Z sample_dispatcher
                         sample_contract)))).
Proof.
  apply (@CheckReplay_purges_only_stale_entries
           sample_externals 6000%Z sample_dispatcher sample_contract).
  reflexivity.
Defined.

(** * Further properties of the replay guard *)

Section ReplayGuardMore.
Context `{Externals}.
Import Dispatcher.

Lemma scan_hash_true_inv (va : Z) (h : uint256) (items : list ReplayPoolItem) :
  fst (scan_hash va h items) = true ->
  Forall (fun item => m_hash item <> h) items.
Proof.
  induction items as [|item rest IH]; cbn [scan_hash]; [constructor|].
  destruct (N.eqb_spec (m_hash item) h) as [|Hne]; [discriminate|].
  destruct (m_timestamp item <? va)%Z.
  - intros Hr. constructor; auto.
  - destruct (scan_hash va h rest) as [r rest']. cbn [fst] in *.
    intros Hr. constructor; auto.
Qed.

Lemma scan_hash_first_match (va : Z) (h : uint256)
      (pre : list ReplayPoolItem) (item : ReplayPoolItem)
      (post : list ReplayPoolItem) :
  Forall (fun entry => m_hash entry <> h) pre ->
  m_hash item = h ->
  scan_hash va h (pre ++ item :: post) =
    (false, filter (fresh va) pre ++ item :: post).
Proof.
  intros Hpre Hitem.
  induction Hpre as [|entry pre Hne _ IH]; cbn [app scan_hash].
  - destruct (N.eqb_spec (m_hash item) h); [reflexivity|contradiction].
  - destruct (N.eqb_spec (m_hash entry) h); [contradiction|].
    destruct (Z.ltb_spec (m_timestamp entry) va) as [Hlt|Hge].
    + rewrite IH. rewrite (filter_cons_False (fresh va)); [reflexivity|].
      unfold fresh. lia.
    + rewrite IH. rewrite (filter_cons_True (fresh va)) by exact Hge.
      reflexivity.
Qed.

Lemma scan_hash_clean (va : Z) (h : uint256) (items : list ReplayPoolItem) :
  Forall (fresh va) items ->
  Forall (fun item => m_hash item <> h) items ->
  scan_hash va h items = (true, items).
Proof.
  induction items as [|item rest IH]; intros Hf Hn; [reflexivity|].
  apply Forall_cons in Hf as [Hf1 Hf]. apply Forall_cons in Hn as [Hn1 Hn].
  cbn [scan_hash].
  destruct (N.eqb_spec (m_hash item) h); [contradiction|].
  destruct (Z.ltb_spec (m_timestamp item) va) as [Hlt|Hge].
  - unfold fresh in Hf1. lia.
  - rewrite IH by assumption. reflexivity.
Qed.

Lemma Forall_filter_keep {A} (P Q : A -> Prop) `{forall x, Decision (Q x)}
      (l : list A) :
  Forall P l -> Forall P (filter Q l).
Proof.
  rewrite !Forall_forall. intros HP x Hx.
  apply list_elem_of_filter in Hx. apply HP, Hx.
Qed.

Lemma Forall_filter_self {A} (Q : A -> Prop) `{forall x, Decision (Q x)}
      (l : list A) :
  Forall Q (filter Q l).
Proof.
  apply Forall_forall. intros x Hx. apply list_elem_of_filter in Hx. apply Hx.
Qed.

(** X1. [CheckReplay] returns true exactly when the contract is signed
    inside the retention window and no pool entry, fresh or stale, carries
    the contract's hash. *)
Theorem CheckReplay_accepts_iff (now : Z) (d : t) (c : Contract.t) :
  fst (fst (CheckReplay now d c)) = true <->
  (ReplayPeriod now <= Contract.m_timestamp c)%Z
  /\ Forall (fun item => m_hash item <> fst (GetHash c)) (m_replay_pool d).
Proof.
  rewrite CheckReplay_unfold.
  destruct (Z.ltb_spec (Contract.m_timestamp c) (ReplayPeriod now))
    as [Hlt|Hge]; cbn [fst].
  - split; [discriminate|]. intros [Hw _]. lia.
  - split.
    + intros Hr. split; [exact Hge|]. now apply scan_hash_true_inv in Hr.
    + intros [_ Hn]. now apply scan_hash_no_match.
Qed.

(** X2. When a contract signed inside the window meets its hash in the
    pool, [CheckReplay] returns false at the first such entry: the stale
    entries before it are purged, the matching entry stays even when it is
    itself stale, and everything after it is left as it was. *)
Theorem CheckReplay_stops_at_first_match
        (now : Z) (d : t) (c : Contract.t)
        (pre : list ReplayPoolItem) (item : ReplayPoolItem)
        (post : list ReplayPoolItem) :
  (ReplayPeriod now <= Contract.m_timestamp c)%Z ->
  m_replay_pool d = pre ++ item :: post ->
  Forall (fun entry => m_hash entry <> fst (GetHash c)) pre ->
  m_hash item = fst (GetHash c) ->
  fst (CheckReplay now d c) =
    (false, Build (filter (fresh (ReplayPeriod now)) pre ++ item :: post)).
Proof.
  intros Hw Hpool Hpre Hitem. rewrite CheckReplay_unfold.
  destruct (Z.ltb_spec (Contract.m_timestamp c) (ReplayPeriod now)); [lia|].
  cbn [fst]. rewrite Hpool, scan_hash_first_match by assumption.
  reflexivity.
Qed.

(** X3. Checking records nothing: after [CheckReplay] has accepted a
    contract, checking the contract it hands back again accepts it, at any
    time whose window still holds the signing timestamp, and a second check
    at the same time leaves the pool exactly as the first one left it. *)
Theorem CheckReplay_accept_is_repeatable (now : Z) (d : t) (c : Contract.t) :
  fst (fst (CheckReplay now d c)) = true ->
  let d1 := snd (fst (CheckReplay now d c)) in
  let c1 := snd (CheckReplay now d c) in
  (forall now',
      (ReplayPeriod now' <= Contract.m_timestamp c)%Z ->
      fst (fst (CheckReplay now' d1 c1)) = true)
  /\ fst (CheckReplay now d1 c1) = (true, d1).
Proof.
  intros Hr d1 c1.
  destruct (CheckReplay_contract now d c) as [Hh Hts].
  fold c1 in Hh, Hts. rewrite GetHash_idem in Hh.
  assert (Hw : (ReplayPeriod now <= Contract.m_timestamp c)%Z
               /\ fst (scan_hash (ReplayPeriod now) (fst (GetHash c))
                                 (m_replay_pool d)) = true).
  { revert Hr. rewrite CheckReplay_unfold.
    destruct (Z.ltb_spec (Contract.m_timestamp c) (ReplayPeriod now));
      cbn [fst]; [discriminate|auto]. }
  destruct Hw as [Hw Hscan].
  assert (Hd1 : d1 = Build (filter (fresh (ReplayPeriod now))
                                   (m_replay_pool d))).
  { unfold d1. rewrite CheckReplay_unfold.
    destruct (Z.ltb_spec (Contract.m_timestamp c) (ReplayPeriod now)); [lia|].
    cbn [fst snd]. now rewrite scan_hash_accepts_purged. }
  assert (Hn : Forall (fun item => m_hash item <> fst (GetHash c))
                      (m_replay_pool d1)).
  { rewrite Hd1. cbn [m_replay_pool].
    apply Forall_filter_keep. now apply scan_hash_true_inv in Hscan. }
  split.
  - intros now' Hw'. rewrite CheckReplay_unfold, Hts, Hh.
    destruct (Z.ltb_spec (Contract.m_timestamp c) (ReplayPeriod now'));
      [lia|]. cbn [fst]. now apply scan_hash_no_match.
  - rewrite CheckReplay_unfold, Hts, Hh.
    destruct (Z.ltb_spec (Contract.m_timestamp c) (ReplayPeriod now)); [lia|].
    cbn [fst]. rewrite scan_hash_clean; [|rewrite Hd1|exact Hn].
    + cbn [fst snd]. rewrite Hd1. reflexivity.
    + cbn [m_replay_pool]. apply Forall_filter_self.
Qed.

End ReplayGuardMore.

Section TrackContractsProperties.
Context `{Externals}.
Import Dispatcher.

Lemma TrackForReplay_unfold (d : t) (c : Contract.t) :
  TrackForReplay d c =
    (Build (m_replay_pool d
            ++ [Item (Contract.m_timestamp c) (fst (GetHash c))]),
     snd (GetHash c)).
Proof. unfold TrackForReplay. destruct (GetHash c). reflexivity. Qed.

Lemma TrackContracts_unfold (d : t) (contracts : list Contract.t) :
  TrackContracts d contracts =
    (Build (m_replay_pool d
            ++ map (fun c => Item (Contract.m_timestamp c) (fst (GetHash c)))
                   contracts),
     map (fun c => snd (GetHash c)) contracts).
Proof.
  revert d. induction contracts as [|c rest IH]; intros d.
  - cbn. rewrite app_nil_r. destruct d; reflexivity.
  - cbn [TrackContracts map]. rewrite TrackForReplay_unfold, IH.
    cbn [m_replay_pool]. rewrite <- app_assoc. reflexivity.
Qed.

Lemma CheckReplay_rejects_pooled_hash (now : Z) (d : t) (c : Contract.t) :
  Exists (fun item => m_hash item = fst (GetHash c)) (m_replay_pool d) ->
  fst (fst (CheckReplay now d c)) = false.
Proof.
  intros Hex. rewrite CheckReplay_unfold.
  destruct (Contract.m_timestamp c <? ReplayPeriod now)%Z; [reflexivity|].
  cbn [fst]. now apply scan_hash_match.
Qed.

(** X4. [TrackContracts] appends one pool entry per contract, in order, to
    the entries already there; afterwards [CheckContractReplay] rejects
    every contract of the batch, at any time, whether it is presented as it
    was or with the hash cache the tracking left in it. *)
Theorem TrackContracts_then_all_rejected
        (gateway : t) (contracts : list Contract.t) :
  let gateway' := fst (TrackContracts gateway contracts) in
  m_replay_pool gateway' =
    m_replay_pool gateway
    ++ map (fun c => Item (Contract.m_timestamp c) (fst (GetHash c)))
           contracts
  /\ (forall c now,
         c ∈ contracts ->
         fst (fst (CheckContractReplay now gateway' c)) = false)
  /\ (forall c now,
         c ∈ snd (TrackContracts gateway contracts) ->
         fst (fst (CheckContractReplay now gateway' c)) = false).
Proof.
  intros gateway'. unfold gateway'. rewrite TrackContracts_unfold.
  cbn [fst snd m_replay_pool].
  assert (Hin : forall c,
             c ∈ contracts ->
             Exists (fun item => m_hash item = fst (GetHash c))
                    (m_replay_pool gateway
                     ++ map (fun c => Item (Contract.m_timestamp c)
                                           (fst (GetHash c))) contracts)).
  { intros c Hc. apply Exists_app. right. apply Exists_exists.
    exists (Item (Contract.m_timestamp c) (fst (GetHash c))).
    split; [|reflexivity].
    apply (list_elem_of_fmap_2
             (fun c => Item (Contract.m_timestamp c) (fst (GetHash c)))).
    exact Hc. }
  split; [reflexivity|]. split.
  - intros c now Hc. unfold CheckContractReplay.
    apply CheckReplay_rejects_pooled_hash. cbn [m_replay_pool]. auto.
  - intros c' now Hc'. unfold CheckContractReplay.
    apply list_elem_of_fmap in Hc' as (c & -> & Hc).
    apply CheckReplay_rejects_pooled_hash. cbn [m_replay_pool].
    rewrite GetHash_idem. auto.
Qed.

End TrackContractsProperties.

(** * Further properties of signing and validation *)

Section SignMore.
Context `{Externals}.
Import Contract.

Lemma RequiresSpecialKey_ext (c1 c2 : Contract.t) :
  m_type c1 = m_type c2 -> m_action c1 = m_action c2 ->
  RequiresSpecialKey c1 = RequiresSpecialKey c2.
Proof.
  intros Ht Ha.
  unfold RequiresSpecialKey, RequiresMessageKey, RequiresMasterKey.
  now rewrite Ht, Ha.
Qed.

Lemma signing_input_fields (now : Z) (rnd : N) (c : Contract.t) :
  let c0 := signing_input now rnd c in
  m_version c0 = m_version c /\ m_type c0 = m_type c
  /\ m_action c0 = m_action c /\ m_key c0 = m_key c
  /\ m_value c0 = m_value c /\ m_signature c0 = m_signature c
  /\ m_public_key c0 = m_public_key c
  /\ m_tx_timestamp c0 = m_tx_timestamp c
  /\ m_timestamp c0 = (if (1 <? m_version c)%Z then now else m_timestamp c)
  /\ m_nonce c0 = (if (1 <? m_version c)%Z then rnd else m_nonce c)
  /\ m_hash_cache c0 = 0%N.
Proof.
  unfold signing_input. cbn.
  destruct (1 <? m_version c)%Z; cbn; repeat split.
Qed.

Lemma GetHash_empty_cache (c : Contract.t) :
  m_hash_cache c = 0%N ->
  m_hash_cache (snd (GetHash c)) = fst (GetHash c).
Proof.
  intros Hc. unfold GetHash. rewrite Hc. cbn.
  destruct (1 <? m_version c)%Z; reflexivity.
Qed.

(** The contract [Sign] leaves behind, field by field. *)
Lemma Sign_fields (private_key : CKey) (now : Z) (rnd : N) (c : Contract.t) :
  let hash := fst (GetHash (signing_input now rnd c)) in
  let r := Sign private_key now rnd c in
  let c' := snd (fst r) in
  m_version c' = m_version c /\ m_type c' = m_type c
  /\ m_action c' = m_action c /\ m_key c' = m_key c
  /\ m_value c' = m_value c
  /\ m_tx_timestamp c' = m_tx_timestamp c
  /\ m_timestamp c' = (if (1 <? m_version c)%Z then now else m_timestamp c)
  /\ m_nonce c' = (if (1 <? m_version c)%Z then rnd else m_nonce c)
  /\ m_hash_cache c' = hash
  /\ match CKey_Sign private_key hash with
     | None =>
         fst (fst r) = false
         /\ m_signature c' = m_signature c
         /\ m_public_key c' = m_public_key c
     | Some output =>
         fst (fst r) = true
         /\ m_signature c' = Signature.Build output
         /\ m_public_key c' =
              (if RequiresSpecialKey c then m_public_key c
               else PublicKey.Build (CKey_GetPubKey private_key))
     end.
Proof.
  intros hash r c'. unfold c', r, hash, Sign.
  fold (signing_input now rnd c).
  pose proof (signing_input_fields now rnd c) as Hin. cbv zeta in Hin.
  destruct Hin as (Hv & Ht & Ha & Hk & Hval & Hs & Hp & Htx & Hts & Hn & Hc).
  pose proof (GetHash_fields (signing_input now rnd c)) as Hg.
  cbv zeta in Hg.
  destruct Hg as (Gv & Gt & Ga & Gk & Gval & Gs & Gp & Gn & Gts & Gtx).
  pose proof (GetHash_empty_cache _ Hc) as Gc.
  destruct (GetHash (signing_input now rnd c)) as [h c1].
  cbn [fst snd] in *.
  assert (Hsp : forall s, RequiresSpecialKey (with_signature s c1)
                          = RequiresSpecialKey c).
  { intros s. apply RequiresSpecialKey_ext; cbn; congruence. }
  destruct (CKey_Sign private_key h) as [output|]; cbn [fst snd].
  - rewrite Hsp. destruct (RequiresSpecialKey c); cbn;
      repeat split; congruence.
  - repeat split; congruence.
Qed.

(** X5. [Sign] starts from an invalidated cache, so its whole outcome is
    the same whatever hash the contract had cached; and it never changes
    the version, type, action, key, value or transaction timestamp. Up to
    version 1 it leaves signing timestamp and nonce alone; above version 1
    it stamps the time and the random value it is given, also when signing
    then fails. *)
Theorem Sign_ignores_cache_and_keeps_content
        (private_key : CKey) (now : Z) (rnd : N) (c : Contract.t)
        (cached : uint256) :
  Sign private_key now rnd (with_hash_cache cached c)
  = Sign private_key now rnd c
  /\ let c' := snd (fst (Sign private_key now rnd c)) in
     m_version c' = m_version c /\ m_type c' = m_type c
     /\ m_action c' = m_action c /\ m_key c' = m_key c
     /\ m_value c' = m_value c
     /\ m_tx_timestamp c' = m_tx_timestamp c
     /\ m_timestamp c' = (if (1 <? m_version c)%Z then now else m_timestamp c)
     /\ m_nonce c' = (if (1 <? m_version c)%Z then rnd else m_nonce c).
Proof.
  split; [reflexivity|].
  pose proof (Sign_fields private_key now rnd c) as Hf. cbv zeta in Hf.
  cbv zeta. intuition.
Qed.

Lemma WellFormed_true (c : Contract.t) :
  WellFormed c = true <->
  (1 <= m_version c <= CURRENT_VERSION)%Z
  /\ Type_.Value (m_type c) <> CT_UNKNOWN
  /\ Action.Value (m_action c) <> CA_UNKNOWN
  /\ m_key c <> ""
  /\ m_value c <> ""
  /\ (64 <= length (Signature.Raw (m_signature c)) <= 73)%nat
  /\ (RequiresSpecialKey c = true
      \/ IsValid (PublicKey.Key (m_public_key c)) = true)
  /\ (0 < m_tx_timestamp c)%Z
  /\ (m_version c = 1%Z
      \/ ((0 < m_timestamp c)%Z /\ m_nonce c <> 0%N)).
Proof.
  unfold WellFormed, PublicKey.Viable, PublicKey.Key.
  rewrite !andb_true_iff, !orb_true_iff, !negb_true_iff, andb_true_iff.
  rewrite <- !not_true_iff_false.
  rewrite Type_eq_enum_spec, Action_eq_enum_spec, !empty_spec.
  rewrite Signature_Viable_spec.
  rewrite !Z.ltb_lt, Z.leb_le, Z.eqb_eq, N.ltb_lt.
  intuition lia.
Qed.

(** X6. When the private key signs, [Sign] returns true, and the contract
    it leaves is well-formed exactly when the contract's own fields were in
    order (version, type, action, key, value, transaction timestamp), the
    signature produced has 64 to 73 bytes, a special key is required or the
    signer's public key is valid, and, above version 1, the time stamped is
    positive and the random nonce drawn is not zero. [Sign] checks none of
    this itself. *)
Theorem Sign_success_WellFormed_iff
        (private_key : CKey) (now : Z) (rnd : N) (c : Contract.t)
        (output : list byte) :
  CKey_Sign private_key (fst (GetHash (signing_input now rnd c)))
  = Some output ->
  fst (fst (Sign private_key now rnd c)) = true
  /\ (WellFormed (snd (fst (Sign private_key now rnd c))) = true <->
      (1 <= m_version c <= CURRENT_VERSION)%Z
      /\ Type_.Value (m_type c) <> CT_UNKNOWN
      /\ Action.Value (m_action c) <> CA_UNKNOWN
      /\ m_key c <> ""
      /\ m_value c <> ""
      /\ (64 <= length output <= 73)%nat
      /\ (RequiresSpecialKey c = true
          \/ IsValid (CKey_GetPubKey private_key) = true)
      /\ (0 < m_tx_timestamp c)%Z
      /\ (m_version c = 1%Z \/ ((0 < now)%Z /\ rnd <> 0%N))).
Proof.
  intros Hsign.
  pose proof (Sign_fields private_key now rnd c) as Hf. cbv zeta in Hf.
  rewrite Hsign in Hf.
  destruct Hf as (Hv & Ht & Ha & Hk & Hval & Htx & Hts & Hn & _
                  & Hr & Hs & Hp).
  split; [exact Hr|].
  rewrite WellFormed_true.
  rewrite (RequiresSpecialKey_ext _ c Ht Ha).
  rewrite Hv, Ht, Ha, Hk, Hval, Htx, Hts, Hn, Hs, Hp.
  cbn [Signature.Raw Signature.m_bytes].
  destruct (RequiresSpecialKey c) eqn:Hsp;
    destruct (Z.ltb_spec 1 (m_version c));
    cbn [PublicKey.Key PublicKey.m_key]; intuition (try lia; try congruence).
Qed.

Lemma WellFormed_needs_tx_timestamp (c : Contract.t) :
  (m_tx_timestamp c <= 0)%Z -> WellFormed c = false.
Proof.
  intros Htx. apply not_true_iff_false. rewrite WellFormed_true.
  intros (_ & _ & _ & _ & _ & _ & _ & Hpos & _). lia.
Qed.

(** X7. A contract made by the default constructor or by the
    (type, action, key, value) constructor is not well-formed, and signing
    it does not make it well-formed, whatever the key, the time and the
    nonce: its transaction timestamp is 0 and [Sign] does not set it. *)
Theorem constructed_contract_not_WellFormed :
  WellFormed Contract_default = false
  /\ (forall type action key value,
         WellFormed (Contract_new type action key value) = false)
  /\ (forall private_key now rnd,
         WellFormed (snd (fst (Sign private_key now rnd Contract_default)))
         = false)
  /\ (forall private_key now rnd type action key value,
         WellFormed
           (snd (fst (Sign private_key now rnd
                           (Contract_new type action key value))))
         = false).
Proof.
  assert (Hsign : forall private_key now rnd c,
             m_tx_timestamp c = 0%Z ->
             WellFormed (snd (fst (Sign private_key now rnd c))) = false).
  { intros private_key now rnd c Htx.
    apply WellFormed_needs_tx_timestamp.
    pose proof (Sign_fields private_key now rnd c) as Hf. cbv zeta in Hf.
    destruct Hf as (_ & _ & _ & _ & _ & Htx' & _). rewrite Htx', Htx. lia. }
  repeat split; intros;
    first [ apply Hsign; reflexivity
          | apply WellFormed_needs_tx_timestamp; cbn; lia ].
Qed.

End SignMore.

Section ValidateMore.
Context `{Externals} `{Utilities}.
Import Contract.

Lemma ResolvePublicKey_ext (c1 c2 : Contract.t) :
  m_type c1 = m_type c2 -> m_action c1 = m_action c2 ->
  RequiresSpecialKey c1 = true ->
  ResolvePublicKey c1 = ResolvePublicKey c2.
Proof.
  intros Ht Ha.
  unfold RequiresSpecialKey, ResolvePublicKey, RequiresMessageKey,
    RequiresMasterKey.
  rewrite Ht, Ha.
  destruct (Type_.Value (m_type c2)), (Action.eq_enum (m_action c2) ADD),
    (Action.eq_enum (m_action c2) REMOVE); cbn; congruence.
Qed.

Lemma ResolvePublicKey_embedded (c : Contract.t) :
  RequiresSpecialKey c = false ->
  ResolvePublicKey c = PublicKey.Key (m_public_key c).
Proof.
  unfold RequiresSpecialKey, ResolvePublicKey.
  destruct (RequiresMessageKey c), (RequiresMasterKey c); cbn; congruence.
Qed.

Lemma GetHash_legacy_le (c : Contract.t) :
  (m_version c <= 1)%Z -> m_hash_cache c = 0%N ->
  fst (GetHash c) = Hash (Type_.ToString (m_type c)) (m_key c) (m_value c).
Proof.
  intros Hv Hc. unfold GetHash. rewrite Hc. cbn.
  destruct (Z.ltb_spec 1 (m_version c)); [lia|reflexivity].
Qed.

Lemma GetHash_cached (c : Contract.t) :
  m_hash_cache c <> 0%N -> GetHash c = (m_hash_cache c, c).
Proof.
  intros Hc. unfold GetHash.
  destruct (N.ltb_spec 0 (m_hash_cache c)); [reflexivity|lia].
Qed.

(** X8. After a successful [Sign], [VerifySignature] on the contract it
    leaves checks exactly the signature just produced, over the hash that
    was just signed, against the key the type and action call for: the
    message or master key when one is required, the signer's public key
    otherwise. This holds up to version 1 always and above version 1
    whenever the signed hash is not zero, since the cache then answers. *)
Theorem Sign_then_VerifySignature
        (private_key : CKey) (now : Z) (rnd : N) (c : Contract.t)
        (output : list byte) :
  let hash := fst (GetHash (signing_input now rnd c)) in
  CKey_Sign private_key hash = Some output ->
  (m_version c <= 1)%Z \/ hash <> 0%N ->
  let public_key :=
    if RequiresMessageKey c then MessagePublicKey
    else if RequiresMasterKey c then MasterPublicKey
    else CKey_GetPubKey private_key in
  fst (fst (VerifySignature (snd (fst (Sign private_key now rnd c)))))
  = CKey_SetPubKey public_key && CKey_Verify public_key hash output.
Proof.
  intros hash Hsign Hhash public_key.
  pose proof (Sign_fields private_key now rnd c) as Hf. cbv zeta in Hf.
  fold hash in Hf. rewrite Hsign in Hf.
  destruct Hf as (Hv & Ht & Ha & Hk & Hval & Htx & Hts & Hn & Hc
                  & Hr & Hs & Hp).
  set (c' := snd (fst (Sign private_key now rnd c))) in *.
  assert (Hpk : ResolvePublicKey c' = public_key).
  { unfold public_key, ResolvePublicKey, RequiresMessageKey,
      RequiresMasterKey.
    rewrite Ht, Ha, Hp. unfold RequiresSpecialKey, RequiresMessageKey,
      RequiresMasterKey.
    destruct (Type_.Value (m_type c)), (Action.eq_enum (m_action c) ADD),
      (Action.eq_enum (m_action c) REMOVE); reflexivity. }
  assert (Hh : fst (GetHash c') = hash
               /\ m_signature (snd (GetHash c')) = Signature.Build output).
  { split; [|destruct (GetHash_fields c') as (_ & _ & _ & _ & _ & Gs & _);
             congruence].
    destruct (N.eq_dec hash 0%N) as [Hz|Hne].
    - destruct Hhash as [Hle|]; [|contradiction].
      unfold GetHash. rewrite Hc, Hz. cbn. rewrite Hv.
      destruct (Z.ltb_spec 1 (m_version c)); [lia|]. cbn.
      rewrite Ht, Hk, Hval, <- Hz. unfold hash.
      pose proof (signing_input_fields now rnd c) as Hin. cbv zeta in Hin.
      destruct Hin as (Iv & It & _ & Ik & Ival & _ & _ & _ & _ & _ & Ic).
      rewrite GetHash_legacy_le by (rewrite ?Iv; assumption).
      congruence.
    - rewrite GetHash_cached by congruence. cbn. exact Hc. }
  destruct Hh as [Hh Hsig].
  unfold VerifySignature. rewrite Hpk.
  destruct (CKey_SetPubKey public_key); cbn [negb andb]; [|reflexivity].
  destruct (GetHash c') as [h c1]. cbn [fst snd] in *.
  rewrite Hh, Hsig. reflexivity.
Qed.

(** X9. [Validate] returns false for a contract that is not well-formed
    without computing a hash or logging; it returns true exactly when the
    contract is well-formed, the key object accepts the resolved public key
    and the signature verifies over the contract's hash; and well-formedness
    is the same after the call as before. *)
Theorem Validate_iff (c : Contract.t) :
  (if WellFormed c then True else Validate c = (false, c, []))
  /\ (fst (fst (Validate c)) = true <->
      WellFormed c = true
      /\ CKey_SetPubKey (ResolvePublicKey c) = true
      /\ CKey_Verify (ResolvePublicKey c) (fst (GetHash c))
                     (Signature.Raw (m_signature c)) = true)
  /\ WellFormed (snd (fst (Validate c))) = WellFormed c.
Proof.
  unfold Validate, VerifySignature.
  destruct (GetHash_fields c) as (Gv & Gt & Ga & Gk & Gval & Gs & Gp & Gn
                                  & Gts & Gtx).
  assert (Hwf : WellFormed (snd (GetHash c)) = WellFormed c).
  { unfold WellFormed.
    rewrite (RequiresSpecialKey_ext _ c Gt Ga).
    now rewrite Gv, Gt, Ga, Gk, Gval, Gs, Gp, Gn, Gts, Gtx. }
  destruct (WellFormed c) eqn:Ewf.
  - split; [exact I|].
    destruct (CKey_SetPubKey (ResolvePublicKey c)); cbn [negb].
    + destruct (GetHash c) as [h c1]. cbn [fst snd] in *. rewrite Gs.
      split; [|exact Hwf]. intuition.
    + cbn [fst snd]. split; [|exact Ewf]. intuition discriminate.
  - split; [reflexivity|]. cbn [fst snd].
    split; [|exact Ewf]. intuition discriminate.
Qed.

(** X10. For a contract up to version 1 with an empty hash cache whose type
    and action call for the master or message key, the verdict of
    [Validate] does not depend on the embedded public key. *)
Theorem Validate_ignores_embedded_key_when_special
        (c : Contract.t) (k : PublicKey.t) :
  (m_version c <= 1)%Z ->
  m_hash_cache c = 0%N ->
  RequiresSpecialKey c = true ->
  fst (fst (Validate (with_public_key k c))) = fst (fst (Validate c)).
Proof.
  intros Hv Hc Hsp.
  assert (Hsp' : RequiresSpecialKey (with_public_key k c) = true).
  { rewrite <- Hsp. now apply RequiresSpecialKey_ext. }
  assert (Hwf : WellFormed (with_public_key k c) = WellFormed c).
  { unfold WellFormed. rewrite Hsp', Hsp. reflexivity. }
  assert (Hpk : ResolvePublicKey (with_public_key k c) = ResolvePublicKey c).
  { now apply ResolvePublicKey_ext. }
  assert (Hh : fst (GetHash (with_public_key k c)) = fst (GetHash c)).
  { rewrite !GetHash_legacy_le by assumption. reflexivity. }
  assert (Hs : m_signature (snd (GetHash (with_public_key k c)))
               = m_signature (snd (GetHash c))).
  { destruct (GetHash_fields (with_public_key k c))
      as (_ & _ & _ & _ & _ & G1 & _).
    destruct (GetHash_fields c) as (_ & _ & _ & _ & _ & G2 & _).
    rewrite G1, G2. reflexivity. }
  unfold Validate, VerifySignature. rewrite Hwf, Hpk.
  destruct (WellFormed c); [|reflexivity].
  destruct (CKey_SetPubKey (ResolvePublicKey c)); cbn [negb]; [|reflexivity].
  destruct (GetHash (with_public_key k c)) as [h1 c1].
  destruct (GetHash c) as [h2 c2]. cbn [fst snd] in *.
  now rewrite Hh, Hs.
Qed.

End ValidateMore.

(** * Further properties of the codecs and of parsing *)

Section CodecMore.
Import Contract.

(** X11. [Signature::Parse] gives a viable signature exactly when the text
    is non-empty, decodes without the invalid flag, and decodes to between
    64 and 73 bytes; empty or undecodable text gives the empty signature,
    which is not viable. *)
Theorem Signature_Parse_Viable_iff
        (DecodeBase64 : string -> list byte * bool) (input : string) :
  Signature.Viable (Signature.Parse DecodeBase64 input) = true <->
  input <> ""
  /\ snd (DecodeBase64 input) = false
  /\ (64 <= length (fst (DecodeBase64 input)) <= 73)%nat.
Proof.
  unfold Signature.Parse.
  destruct input as [|a input]; cbn [empty].
  - split; [discriminate|]. intros [Hne _]. congruence.
  - destruct (DecodeBase64 (String a input)) as [decoded invalid].
    cbn [fst snd]. destruct invalid.
    + split; [discriminate|]. intros (_ & Hi & _). discriminate.
    + rewrite Signature_Viable_spec. cbn. intuition discriminate.
Qed.

(** X12. Printing a signature and parsing the text gives the signature
    back, the empty signature included, provided base64 decoding inverts
    encoding on non-empty byte sequences and encoding such a sequence never
    gives the empty text. *)
Theorem Signature_ToString_Parse
        (EncodeBase64 : list byte -> string)
        (DecodeBase64 : string -> list byte * bool)
        (s : Signature.t) :
  (forall bytes, bytes <> [] -> DecodeBase64 (EncodeBase64 bytes) = (bytes, false)) ->
  (forall bytes, bytes <> [] -> EncodeBase64 bytes <> "") ->
  Signature.Parse DecodeBase64 (Signature.ToString EncodeBase64 s) = s.
Proof.
  intros Hdec Hne. destruct s as [bytes].
  unfold Signature.ToString, Signature.Parse. cbn [Signature.m_bytes].
  destruct bytes as [|b bytes]; [reflexivity|].
  assert (Hb : b :: bytes <> []) by discriminate.
  specialize (Hne _ Hb). rewrite (Hdec _ Hb).
  destruct (EncodeBase64 (b :: bytes)); [contradiction|reflexivity].
Qed.

(** X13. Printing a public key and parsing the text gives the key back,
    the empty key included, provided hex parsing inverts hex printing and
    only the empty byte sequence prints as the empty text. *)
Theorem PublicKey_ToString_Parse
        (HexStr : list byte -> string) (ParseHex : string -> list byte)
        (k : PublicKey.t) :
  (forall bytes, ParseHex (HexStr bytes) = bytes) ->
  (forall bytes, HexStr bytes = "" -> bytes = []) ->
  PublicKey.Parse ParseHex (PublicKey.ToString HexStr k) = k.
Proof.
  intros Hinv Hempty. destruct k as [[bytes]].
  unfold PublicKey.ToString, PublicKey.Parse.
  cbn [PublicKey.m_key vchPubKey].
  destruct (HexStr bytes) eqn:E.
  - cbn [empty]. rewrite (Hempty _ E). reflexivity.
  - cbn [empty]. rewrite <- E, Hinv. reflexivity.
Qed.

(** X15. Both codecs are injective: two tokens parse to the same variant
    only if they are the same token, so no two distinct wire tokens are ever
    confused after parsing. *)
Theorem Parse_injective (s1 s2 : string) :
  (Type_.Parse s1 = Type_.Parse s2 <-> s1 = s2)
  /\ (Action.Parse s1 = Action.Parse s2 <-> s1 = s2).
Proof.
  split; (split; [intros Heq | congruence]).
  - rewrite <- (Type_ToString_Parse s1), <- (Type_ToString_Parse s2).
    now rewrite Heq.
  - rewrite <- (Action_ToString_Parse s1), <- (Action_ToString_Parse s2).
    now rewrite Heq.
Qed.

(** X16. A parsed type has the UNKNOWN value exactly when the token is
    neither canonical nor "projectmapping", and a parsed action has the
    UNKNOWN value exactly when the token is neither "A" nor "D"; matching is
    exact, so a token in another letter case is unknown. *)
Theorem Parse_Value_UNKNOWN_iff (s : string) :
  (Type_.Value (Type_.Parse s) = CT_UNKNOWN <->
     is_token Type_tokens s = false /\ s <> "projectmapping")
  /\ (Action.Value (Action.Parse s) = CA_UNKNOWN <->
        is_token Action_tokens s = false).
Proof.
  unfold Type_.Parse, Action.Parse, is_token, Type_tokens, Action_tokens.
  cbn [existsb]. split.
  - repeat match goal with
           | |- context [String.eqb s ?y] =>
               destruct (String.eqb_spec s y) as [->|?];
               [cbn; split; [discriminate | intros [? ?]; congruence]|]
           end.
    destruct (empty s); cbn; split; auto.
  - repeat match goal with
           | |- context [String.eqb s ?y] =>
               destruct (String.eqb_spec s y) as [->|?];
               [cbn; split; discriminate|]
           end.
    destruct (empty s); cbn; split; auto.
Qed.

End CodecMore.

Section ParseMore.
Context `{Externals}.
Import Contract.

Lemma special_key_types (c : Contract.t) :
  Action.Value (m_action c) <> CA_UNKNOWN ->
  (RequiresSpecialKey c = true <->
   Type_.Value (m_type c) <> CT_UNKNOWN
   /\ Type_.Value (m_type c) <> SUPERBLOCK).
Proof.
  unfold RequiresSpecialKey, RequiresMessageKey, RequiresMasterKey,
    Action.eq_enum.
  destruct (Type_.Value (m_type c)), (Action.Value (m_action c));
    cbn; intuition congruence.
Qed.

(** X17. When the default (empty) public key is not valid, a legacy
    message parses to a well-formed contract exactly when: the message is
    non-empty, version 1 is allowed, the type token is one of beacon, poll,
    project (or projectmapping), protocol, scraper, vote, the action token
    is A or D, key and value are non-empty, the signature text decodes to a
    viable signature, and the transaction timestamp is positive. Superblock
    messages and unknown types never parse to a well-formed contract. *)
Theorem Parse_WellFormed_iff (message : string) (tx_timestamp : Z) :
  IsValid (MkCPubKey []) = false ->
  WellFormed (Parse message tx_timestamp) = true <->
  message <> ""
  /\ (1 <= CURRENT_VERSION)%Z
  /\ Type_.Value (Type_.Parse (ExtractXML message "<MT>" "</MT>"))
       <> CT_UNKNOWN
  /\ Type_.Value (Type_.Parse (ExtractXML message "<MT>" "</MT>"))
       <> SUPERBLOCK
  /\ Action.Value (Action.Parse (ExtractXML message "<MA>" "</MA>"))
       <> CA_UNKNOWN
  /\ ExtractXML message "<MK>" "</MK>" <> ""
  /\ ExtractXML message "<MV>" "</MV>" <> ""
  /\ Signature.Viable
       (Signature.Parse DecodeBase64 (ExtractXML message "<MS>" "</MS>"))
     = true
  /\ (0 < tx_timestamp)%Z.
Proof.
  intros Hdefault. rewrite WellFormed_true. unfold Parse.
  destruct message as [|a message]; cbn [empty].
  - unfold Contract_default. cbn. intuition congruence.
  - cbn [m_version m_type m_action m_key m_value m_signature m_public_key
         m_nonce m_timestamp m_tx_timestamp].
    rewrite <- Signature_Viable_spec.
    set (c := Contract.Build _ _ _ _ _ _ _ _ _ _ _).
    cbn [PublicKey.Key PublicKey.default PublicKey.m_key]. rewrite Hdefault.
    split.
    + intros (Hv & Ht & Ha & Hk & Hval & Hs & Hsp & Htx & _).
      destruct Hsp as [Hsp|]; [|discriminate].
      apply special_key_types in Hsp; [|exact Ha].
      cbn in Hsp. intuition (try discriminate; try lia).
    + intros (_ & Hv & Ht & Hsb & Ha & Hk & Hval & Hs & Htx).
      assert (Hsp : RequiresSpecialKey c = true).
      { apply special_key_types; [exact Ha|]. cbn. auto. }
      intuition lia.
Qed.

(** X18. A well-formed contract whose type is not SUPERBLOCK is always
    checked against one of the two fixed keys: its resolved public key is
    the master key or the message key, never the embedded one. *)
Theorem WellFormed_resolves_fixed_key (c : Contract.t) :
  WellFormed c = true ->
  Type_.Value (m_type c) <> SUPERBLOCK ->
  RequiresSpecialKey c = true
  /\ (ResolvePublicKey c = MasterPublicKey
      \/ ResolvePublicKey c = MessagePublicKey).
Proof.
  intros Hwf Hsb. apply WellFormed_true in Hwf.
  destruct Hwf as (_ & Ht & Ha & _).
  assert (Hsp : RequiresSpecialKey c = true).
  { apply special_key_types; auto. }
  split; [exact Hsp|]. revert Hsp.
  unfold RequiresSpecialKey, ResolvePublicKey.
  destruct (RequiresMessageKey c); [auto|].
  destruct (RequiresMasterKey c); [auto|discriminate].
Qed.

End ParseMore.

Section DetectMore.
Context `{Utilities}.
Import Contract.

Lemma ToString_starts_with_MT (c : Contract.t) :
  exists rest, ToString c = ("<MT>" ++ rest)%string.
Proof. unfold ToString. eexists. reflexivity. Qed.

Lemma ToString_superblock (c : Contract.t) :
  Type_.ToString (m_type c) = "superblock" ->
  exists rest, ToString c = ("<MT>superblock</MT>" ++ rest)%string.
Proof. intros Ht. unfold ToString. rewrite Ht. eexists. reflexivity. Qed.

(** X14. Provided [Contains] finds every prefix of a text, the text
    [Contract::ToString] produces is detected as a contract unless it holds
    the superblock type tag, and for a contract whose type prints as
    "superblock" it is never detected; the empty message is not detected
    either. *)
Theorem Detect_ToString (c : Contract.t) :
  (forall s t : string, Contains (s ++ t)%string s = true) ->
  Detect "" = false
  /\ Detect (ToString c) = negb (Contains (ToString c) "<MT>superblock</MT>")
  /\ (Type_.ToString (m_type c) = "superblock" -> Detect (ToString c) = false).
Proof.
  intros Hprefix.
  assert (Hd : Detect (ToString c)
               = negb (Contains (ToString c) "<MT>superblock</MT>")).
  { unfold Detect. destruct (ToString_starts_with_MT c) as [rest ->].
    rewrite Hprefix. reflexivity. }
  split; [reflexivity|]. split; [exact Hd|].
  intros Ht. rewrite Hd.
  destruct (ToString_superblock c Ht) as [rest ->].
  rewrite Hprefix. reflexivity.
Qed.

End DetectMore.

(** * Further properties of dispatch *)

Section DispatchMore.
Context `{Externals}.
Import Contract.

(** X19. A contract whose type value is UNKNOWN or SUPERBLOCK changes no
    handler state, whatever its action: [ProcessContract] and
    [RevertContract] produce log lines at most, and none when the debug flag
    is off. *)
Theorem unknown_type_never_mutates (contract : Contract.t) :
  match Type_.Value (m_type contract) with
  | CT_UNKNOWN | SUPERBLOCK =>
      existsb mutates (ProcessContract contract) = false
      /\ existsb mutates (RevertContract contract) = false
      /\ (if fDebug then True
          else ProcessContract contract = []
               /\ RevertContract contract = [])
  | _ => True
  end.
Proof.
  unfold ProcessContract, RevertContract, Dispatcher.Apply, Dispatcher.Revert,
    Dispatcher.GetHandler, Dispatcher.m_unknown_handler,
    UnknownContractHandler, Log.
  destruct (Type_.Value (m_type contract)); try exact I;
    cbn [IContractHandler.Add IContractHandler.Delete IContractHandler.Revert];
    destruct fDebug, (Action.eq_enum (m_action contract) ADD),
      (Action.eq_enum (m_action contract) REMOVE); cbn; auto.
Qed.

(** X20. For the types the legacy key-value handler serves (POLL,
    PROTOCOL, SCRAPER, VOTE), reverting an ADD deletes exactly the cache
    entry that applying it wrote, under the section named by the type string
    and the contract's key, and reverting a REMOVE writes the entry back
    with the contract's own value and transaction timestamp. Reverting never
    assigns the poll title unless it re-adds a POLL. *)
Theorem legacy_Revert_inverts_Apply (contract : Contract.t) :
  let section := Type_.ToString (m_type contract) in
  let key := m_key contract in
  let write := WriteCache section key (m_value contract)
                          (m_tx_timestamp contract) in
  let poll := if Type_.eq_enum (m_type contract) POLL
              then [Assign_msPoll contract] else [] in
  match Type_.Value (m_type contract) with
  | POLL | PROTOCOL | SCRAPER | VOTE =>
      match Action.Value (m_action contract) with
      | ADD =>
          filter (fun e => mutates e = true) (ProcessContract contract)
          = write :: poll
          /\ filter (fun e => mutates e = true) (RevertContract contract)
             = [DeleteCache section key]
      | REMOVE =>
          filter (fun e => mutates e = true) (ProcessContract contract)
          = [DeleteCache section key]
          /\ filter (fun e => mutates e = true) (RevertContract contract)
             = write :: poll
      | CA_UNKNOWN =>
          filter (fun e => mutates e = true) (ProcessContract contract) = []
          /\ filter (fun e => mutates e = true) (RevertContract contract) = []
      end
  | _ => True
  end.
Proof.
  intros section key write poll.
  unfold ProcessContract, RevertContract, Dispatcher.Apply, Dispatcher.Revert,
    Dispatcher.GetHandler, Dispatcher.m_appcache_handler,
    AppCacheContractHandler, IContractHandler_Revert, AppCache_Add,
    AppCache_Delete, Log, Action.eq_enum.
  fold section key write. unfold poll.
  destruct (Type_.Value (m_type contract)); try exact I;
    cbn [IContractHandler.Add IContractHandler.Delete IContractHandler.Revert];
    destruct (Action.Value (m_action contract)); cbn [ContractAction_eqb];
    destruct fDebug; cbn [negb app];
    destruct (Type_.eq_enum (m_type contract) POLL);
    split; reflexivity.
Qed.

End DispatchMore.

(** * Witnesses for the further properties *)

Lemma prefix_app (s t : string) : String.prefix s (s ++ t)%string = true.
Proof.
  induction s as [|a s IH]; cbn; [destruct t; reflexivity|].
  destruct (Ascii.ascii_dec a a); [exact IH|contradiction].
Qed.

Lemma sample_Contains_prefix (s t : string) :
  sample_Contains (s ++ t)%string s = true.
Proof.
  pose proof (prefix_app s t) as Hp.
  destruct (s ++ t)%string; cbn [sample_Contains]; rewrite Hp; reflexivity.
Qed.

Lemma CheckReplay_stops_at_first_match_witness :
  fst (@Dispatcher.CheckReplay
         sample_externals 6000%Z
         (Dispatcher.Build [Dispatcher.Item 100%Z 999%N;
                            Dispatcher.Item 100%Z 5008%N;
                            Dispatcher.Item 2000%Z 13%N])
         sample_contract)
  = (false,
     Dispatcher.Build [Dispatcher.Item 100%Z 5008%N;
                       Dispatcher.Item 2000%Z 13%N]).
Proof.
  apply (@CheckReplay_stops_at_first_match
           sample_externals 6000%Z _ sample_contract
           [Dispatcher.Item 100%Z 999%N]
           (Dispatcher.Item 100%Z 5008%N)
           [Dispatcher.Item 2000%Z 13%N]).
  - vm_compute. discriminate.
  - reflexivity.
  - repeat constructor. vm_compute. discriminate.
  - reflexivity.
Defined.

Lemma CheckReplay_accept_is_repeatable_witness :
  fst (fst (@Dispatcher.CheckReplay
              sample_externals 7000%Z
              (snd (fst (@Dispatcher.CheckReplay
                           sample_externals 6000%Z sample_dispatcher
                           sample_contract)))
              (snd (@Dispatcher.CheckReplay
                      sample_externals 6000%Z sample_dispatcher
                      sample_contract))))
  = true.
Proof.
  pose proof (@CheckReplay_accept_is_repeatable
                sample_externals 6000%Z sample_dispatcher sample_contract)
    as Hthm.
  cbv zeta in Hthm.
  apply Hthm; [reflexivity|]. vm_compute. discriminate.
Defined.

Lemma Sign_success_WellFormed_iff_witness :
  @WellFormed sample_externals
    (snd (fst (@Sign sample_externals true 6000%Z 9%N sample_contract)))
  = true.
Proof.
  apply (@Sign_success_WellFormed_iff
           sample_externals true 6000%Z 9%N sample_contract
           (repeat Byte.x30 70)); [reflexivity|].
  cbn. repeat split; try discriminate; try lia; auto.
Defined.

Lemma Sign_then_VerifySignature_witness :
  fst (fst (@VerifySignature
              sample_externals sample_utilities
              (snd (fst (@Sign sample_externals true 6000%Z 9%N
                               sample_superblock_contract)))))
  = true.
Proof.
  pose proof (@Sign_then_VerifySignature
                sample_externals sample_utilities true 6000%Z 9%N
                sample_superblock_contract (repeat Byte.x30 70))
    as Hthm.
  cbv zeta in Hthm. rewrite Hthm.
  - reflexivity.
  - reflexivity.
  - right. vm_compute. discriminate.
Defined.

Lemma Validate_ignores_embedded_key_when_special_witness :
  fst (fst (@Validate
              sample_externals sample_utilities
              (Contract.with_public_key
                 (Contract.PublicKey.Build (MkCPubKey (repeat Byte.x04 65)))
                 sample_legacy_contract)))
  = fst (fst (@Validate sample_externals sample_utilities
                        sample_legacy_contract)).
Proof.
  apply (@Validate_ignores_embedded_key_when_special
           sample_externals sample_utilities).
  - cbn. lia.
  - reflexivity.
  - reflexivity.
Defined.

Lemma Signature_ToString_Parse_witness :
  Contract.Signature.Parse
    (fun text => (list_byte_of_string text, false))
    (Contract.Signature.ToString
       string_of_list_byte
       (Contract.Signature.Build (repeat Byte.x30 70)))
  = Contract.Signature.Build (repeat Byte.x30 70).
Proof.
  apply Signature_ToString_Parse.
  - intros bytes _. now rewrite list_byte_of_string_of_list_byte.
  - intros [|b bytes] Hne; [contradiction|]. discriminate.
Defined.

Lemma PublicKey_ToString_Parse_witness :
  Contract.PublicKey.Parse
    list_byte_of_string
    (Contract.PublicKey.ToString
       string_of_list_byte
       (Contract.PublicKey.Build MasterPublicKey))
  = Contract.PublicKey.Build MasterPublicKey.
Proof.
  apply PublicKey_ToString_Parse.
  - intros bytes. apply list_byte_of_string_of_list_byte.
  - intros [|b bytes]; [reflexivity|discriminate].
Defined.

Lemma Detect_ToString_witness :
  @Detect sample_utilities
          (@ToString sample_utilities sample_superblock_contract)
  = false.
Proof.
  apply (@Detect_ToString sample_utilities sample_superblock_contract).
  - exact sample_Contains_prefix.
  - reflexivity.
Defined.

Lemma Parse_WellFormed_iff_witness :
  @WellFormed sample_parse_externals
              (@Parse sample_parse_externals "<MT>beacon</MT>" 5001%Z)
  = true.
Proof.
  apply (@Parse_WellFormed_iff sample_parse_externals); [reflexivity|].
  cbn. repeat split; try discriminate; try lia.
Defined.

Lemma WellFormed_resolves_fixed_key_witness :
  @RequiresSpecialKey sample_contract = true
  /\ (@ResolvePublicKey sample_contract = MasterPublicKey
      \/ @ResolvePublicKey sample_contract = MessagePublicKey).
Proof.
  apply (@WellFormed_resolves_fixed_key sample_externals sample_contract).
  - reflexivity.
  - discriminate.
Defined.
